(** * auto_sbux: extraction and reconciliation core of the Starbucks invoice script

    A shallow embedding of [auto_sbux_v1.0_stable.py]: the table-driven pass,
    the known-items lookup and the text-pattern pass of the line-item
    extractor, the label-anchored totals scan, the reconciliation loop against
    the GL database, the summary aggregator and the control flow of [main].

    Modelling conventions.
    - Python [str] values are Rocq [string]s read as ASCII text.
    - Python floats are kept abstract behind the interface [PyFloat]: every
      theorem that quantifies over the interface holds for IEEE doubles as
      well as for the exact-decimal instance [ExactFloat] used to evaluate
      the code on concrete invoices.
    - A line item is the dictionary the script builds; the two keys that the
      reconciliation loop adds are optional fields.
    - The summary dictionary is an insertion-ordered association list, since
      [main] iterates over it. *)

From Stdlib Require Import String Ascii List Bool NArith ZArith QArith Lia DecimalString.
Import ListNotations.

Local Open Scope list_scope.
Local Open Scope string_scope.

(** ** Python string primitives *)

Module Py.

(** [c.isdigit()] / the regex class [\d], on ASCII text. *)
Definition is_digit (c : ascii) : bool :=
  let n := N_of_ascii c in (48 <=? n)%N && (n <=? 57)%N.

Definition is_dot (c : ascii) : bool := Ascii.eqb c ".".

(** [[^\d]] and [[\d.]] of the line pattern. *)
Definition non_digit (c : ascii) : bool := negb (is_digit c).
Definition digit_or_dot (c : ascii) : bool := is_digit c || is_dot c.

Definition newline : ascii := ascii_of_N 10.

(** [needle in hay]. *)
Fixpoint contains (needle hay : string) : bool :=
  if prefix needle hay then true
  else match hay with
       | EmptyString => false
       | String _ hay' => contains needle hay'
       end.

(** [s.split('\n')], as the first line and the remaining ones. *)
Fixpoint split_first (s : string) : string * list string :=
  match s with
  | EmptyString => (EmptyString, [])
  | String c s' =>
      let (l, ls) := split_first s' in
      if Ascii.eqb c newline then (EmptyString, l :: ls) else (String c l, ls)
  end.

Definition split_lines (s : string) : list string :=
  let (l, ls) := split_first s in l :: ls.

(** [s.lstrip('0')]. *)
Fixpoint lstrip0 (s : string) : string :=
  match s with
  | String c s' => if Ascii.eqb c "0" then lstrip0 s' else s
  | EmptyString => EmptyString
  end.

(** [s.replace('.', '', 1)]. *)
Fixpoint remove_first_dot (s : string) : string :=
  match s with
  | EmptyString => EmptyString
  | String c s' => if is_dot c then s' else String c (remove_first_dot s')
  end.

Fixpoint all_digits (s : string) : bool :=
  match s with
  | EmptyString => true
  | String c s' => is_digit c && all_digits s'
  end.

(** [s.isdigit()]: false on the empty string. *)
Definition isdigit (s : string) : bool :=
  match s with
  | EmptyString => false
  | _ => all_digits s
  end.

(** [nums[-1]] guarded by [if nums]. *)
Definition last_of {A : Type} (l : list A) : option A :=
  match rev l with
  | [] => None
  | x :: _ => Some x
  end.

(** *** A greedy, backtracking [cls+]

    [plus cls k acc s] consumes one or more characters of class [cls] from
    [s], longest run first, and hands the consumed text (appended to [acc])
    and the remainder to the continuation [k]; when [k] fails it gives one
    character back and tries again, as the [re] engine does. *)
Fixpoint plus {R : Type} (cls : ascii -> bool)
         (k : string -> string -> option R) (acc s : string) : option R :=
  match s with
  | EmptyString => None
  | String c s' =>
      if cls c then
        let acc' := acc ++ String c EmptyString in
        match plus cls k acc' s' with
        | Some r => Some r
        | None => k acc' s'
        end
      else None
  end.

(** [\d+\.\d{2}] matched at the head of [s]. *)
Definition decimal_at (s : string) : option string :=
  plus is_digit
       (fun g r =>
          match r with
          | String p (String d1 (String d2 _)) =>
              if is_dot p && is_digit d1 && is_digit d2
              then Some (g ++ String p (String d1 (String d2 EmptyString)))
              else None
          | _ => None
          end)
       EmptyString s.

(** [re.findall(r'\d+\.\d{2}', s)]: leftmost matches, not overlapping.
    [skip] counts the characters of the previous match still to be passed. *)
Fixpoint findall_decimal_from (skip : nat) (s : string) : list string :=
  match s with
  | EmptyString => []
  | String _ s' =>
      match skip with
      | S k => findall_decimal_from k s'
      | O =>
          match decimal_at s with
          | Some m => m :: findall_decimal_from (String.length m - 1) s'
          | None => findall_decimal_from 0 s'
          end
      end
  end.

Definition findall_decimal (s : string) : list string :=
  findall_decimal_from 0 s.

(** Nine digits at the head of [s], and what follows them. *)
Fixpoint take_digits (n : nat) (s : string) : option (string * string) :=
  match n with
  | O => Some (EmptyString, s)
  | S n' =>
      match s with
      | String c s' =>
          if is_digit c then
            match take_digits n' s' with
            | Some (d, r) => Some (String c d, r)
            | None => None
            end
          else None
      | EmptyString => None
      end
  end.

(** [re.match(r'^\d{9}$', s)]: [$] also matches before a final newline. *)
Definition is_code9 (s : string) : bool :=
  match take_digits 9 s with
  | Some (_, EmptyString) => true
  | Some (_, String c EmptyString) => Ascii.eqb c newline
  | _ => false
  end.

(** The line pattern [(\d{9})[^\d]+([\d.]+)[^\d]+([\d.]+)$] matched at the
    head of [s]; the three groups of the first match in priority order. *)
Definition item_line_at (s : string) : option (string * string * string) :=
  match take_digits 9 s with
  | None => None
  | Some (code, r0) =>
      plus non_digit (fun _ r1 =>
        plus digit_or_dot (fun g2 r2 =>
          plus non_digit (fun _ r3 =>
            plus digit_or_dot (fun g3 r4 =>
              match r4 with
              | EmptyString => Some (code, g2, g3)
              | _ => None
              end) EmptyString r3) EmptyString r2) EmptyString r1) EmptyString r0
  end.

(** [re.findall] of the line pattern on one line (no newline inside): the
    pattern is anchored at the end, so there is at most one match, the one
    at the leftmost position where the pattern matches. *)
Fixpoint findall_item_line (s : string) : list (string * string * string) :=
  match item_line_at s with
  | Some m => [m]
  | None =>
      match s with
      | EmptyString => []
      | String _ s' => findall_item_line s'
      end
  end.

(** *** Decimal text to a rational

    [float] is only applied to text over the digits and the dot: cells that
    passed [replace('.', '', 1).isdigit()], groups of class [[\d.]] and
    matches of [\d+\.\d{2}].  On such text it fails exactly when there is a
    second dot or no digit at all. *)
Fixpoint pow10 (n : nat) : positive :=
  match n with
  | O => 1%positive
  | S n' => (10 * pow10 n')%positive
  end.

Fixpoint parse_decimal_from (seen_dot : bool) (mant : Z) (frac ndig : nat)
         (s : string) : option Q :=
  match s with
  | EmptyString =>
      match ndig with
      | O => None
      | S _ => Some (Qmake mant (pow10 frac))
      end
  | String c s' =>
      if is_digit c then
        parse_decimal_from seen_dot
          (10 * mant + (Z.of_N (N_of_ascii c) - 48))%Z
          (if seen_dot then S frac else frac) (S ndig) s'
      else if is_dot c && negb seen_dot then
        parse_decimal_from true mant frac ndig s'
      else None
  end.

Definition parse_decimal (s : string) : option Q :=
  parse_decimal_from false 0%Z 0%nat 0%nat s.

(** [str(n)] of an integer. *)
Definition str_int (z : Z) : string := NilZero.string_of_int (Z.to_int z).

End Py.

(** ** Data model

    The types are parameterised by the type [F] of floats. *)

(** A table cell as the document extractor hands it over. *)
Inductive cell_of (F : Type) : Type :=
| CNone
| CInt (z : Z)
| CFloat (f : F)
| CStr (s : string).

Arguments CNone {F}.
Arguments CInt {F} z.
Arguments CFloat {F} f.
Arguments CStr {F} s.

(** A quantity is an [int] in the known-items list and a [float] elsewhere. *)
Inductive number_of (F : Type) : Type :=
| Int (z : Z)
| Flt (f : F).

Arguments Int {F} z.
Arguments Flt {F} f.

(** The item dictionary.  ["GL Code"] and ["GL Description"] are absent until
    the reconciliation loop sets them. *)
Record item_of (F : Type) : Type := {
  Item_Code : string;
  Quantity : number_of F;
  Line_Total : F;
  GL_Code : option string;
  GL_Description : option string
}.

Arguments Item_Code {F} i.
Arguments Quantity {F} i.
Arguments Line_Total {F} i.
Arguments GL_Code {F} i.
Arguments GL_Description {F} i.

(** A row of the GL database as [load_database] returns it. *)
Record db_row : Type := {
  db_Item_Code : string;
  db_GL_Code : string;
  db_GL_Description : string
}.

Definition database : Type := list db_row.

(** The local variables of [process_starbucks_invoice]. *)
Record scan_of (F : Type) : Type := {
  items : list (item_of F);
  subtotal : F;
  tax : F;
  total : F;
  shipping_amount : F;
  tables_processed : bool
}.

Arguments items {F} s.
Arguments subtotal {F} s.
Arguments tax {F} s.
Arguments total {F} s.
Arguments shipping_amount {F} s.
Arguments tables_processed {F} s.

(** What a run puts on the console, one constructor per kind of [print]
    (blank lines are not recorded). *)
Inductive output_of (F : Type) : Type :=
| Message (s : string)
| Item_line (it : item_of F)
| Summary_line (desc : string) (amount : F)
| Amount (label : string) (v : F).

Arguments Message {F} s.
Arguments Item_line {F} it.
Arguments Summary_line {F} desc amount.
Arguments Amount {F} label v.

(** ** Python floats

    [float_of_Q] is the correctly rounded conversion of an exact decimal (a
    float literal, or [float] of decimal text); [float_of_int n] is
    [float(n)], which raises [OverflowError] on integers out of range;
    [float_repr] is [repr]; [fadd] is [+]; [fgt0 x] is [x > 0] and [feq0 x]
    is [x == 0]. *)
Class PyFloat : Type := {
  float : Type;
  float_of_Q : Q -> float;
  float_of_int : Z -> option float;
  float_repr : float -> string;
  fadd : float -> float -> float;
  fgt0 : float -> bool;
  feq0 : float -> bool
}.

(** Floats without rounding: reduced fractions.  [exact_repr] prints the
    decimal expansion the way [repr] prints an amount: ["62.56"], ["62.5"],
    ["16.0"]. *)
Fixpoint frac_digits (fuel : nat) (r d : Z) : string :=
  match fuel with
  | O => EmptyString
  | S fuel' =>
      if (r =? 0)%Z then EmptyString
      else Py.str_int (10 * r / d) ++ frac_digits fuel' ((10 * r) mod d) d
  end.

Definition exact_repr (q : Q) : string :=
  let n := Z.abs (Qnum q) in
  let d := Zpos (Qden q) in
  (if (Qnum q <? 0)%Z then "-" else "") ++
  Py.str_int (n / d) ++ "." ++
  (if (n mod d =? 0)%Z then "0" else frac_digits 17 (n mod d) d).

#[export] Instance ExactFloat : PyFloat := {|
  float := Q;
  float_of_Q := Qred;
  float_of_int := fun z => Some (inject_Z z);
  float_repr := exact_repr;
  fadd := fun a b => Qred (Qplus a b);
  fgt0 := fun q => (0 <? Qnum q)%Z;
  feq0 := fun q => (Qnum q =? 0)%Z
|}.

Section Invoice.

Context {PF : PyFloat}.

(** [float(s)] on text over digits and dots; [None] is [ValueError]. *)
Definition py_float (s : string) : option float :=
  option_map float_of_Q (Py.parse_decimal s).

Definition cell : Type := cell_of float.
Definition row : Type := list cell.
Definition table : Type := list row.
Definition number : Type := number_of float.
Definition item : Type := item_of float.
Definition scan : Type := scan_of float.
Definition output : Type := output_of float.

Definition new_item (code : string) (qty : number) (amt : float) : item :=
  {| Item_Code := code; Quantity := qty; Line_Total := amt;
     GL_Code := None; GL_Description := None |}.

(** ** [str(row)] *)

Definition quote1 : ascii := "'".
Definition quote2 : ascii := ascii_of_N 34.
Definition backslash : ascii := ascii_of_N 92.

Definition hex_digit (n : N) : ascii :=
  nth (N.to_nat n) ["0"; "1"; "2"; "3"; "4"; "5"; "6"; "7"; "8"; "9";
         "a"; "b"; "c"; "d"; "e"; "f"]%char "0"%char.

Definition one (c : ascii) : string := String c EmptyString.

Fixpoint has_char (q : ascii) (s : string) : bool :=
  match s with
  | EmptyString => false
  | String c s' => Ascii.eqb c q || has_char q s'
  end.

(** One character of [repr(s)] inside the quote [q]. *)
Definition repr_char (q c : ascii) : string :=
  let n := N_of_ascii c in
  if Ascii.eqb c q || Ascii.eqb c backslash then String backslash (one c)
  else if (n =? 9)%N then String backslash "t"
  else if (n =? 10)%N then String backslash "n"
  else if (n =? 13)%N then String backslash "r"
  else if (n <? 32)%N || (n =? 127)%N then
    String backslash (String "x" (String (hex_digit (n / 16)) (one (hex_digit (n mod 16)))))
  else one c.

Fixpoint repr_body (q : ascii) (s : string) : string :=
  match s with
  | EmptyString => EmptyString
  | String c s' => repr_char q c ++ repr_body q s'
  end.

(** [repr(s)]: single quotes, unless [s] has a single and no double quote. *)
Definition repr_str (s : string) : string :=
  let q := if has_char quote1 s && negb (has_char quote2 s) then quote2 else quote1 in
  String q (repr_body q s ++ one q).

Definition repr_cell (c : cell) : string :=
  match c with
  | CNone => "None"
  | CInt z => Py.str_int z
  | CFloat f => float_repr f
  | CStr s => repr_str s
  end.

Fixpoint join_cells (r : row) : string :=
  match r with
  | [] => EmptyString
  | [c] => repr_cell c
  | c :: r' => repr_cell c ++ ", " ++ join_cells r'
  end.

Definition row_str (r : row) : string := "[" ++ join_cells r ++ "]".

(** ** The known-items list *)

Definition known (code : string) (qty cents : Z) : item :=
  new_item code (Int qty) (float_of_Q (Qmake cents 100)).

Definition sample_items : list item := [
    known "011120225" 16 6256;
    known "011107006" 48 19248;
    known "011039690" 6 4020;
    known "011119849" 480 128640;
    known "011087054" 24 9960;
    known "011104438" 12 8376;
    known "011048109" 60 65700;
    known "011051145" 6 7140;
    known "011092210" 30 18000;
    known "011147043" 12 13260;
    known "011147042" 24 32160;
    known "011112621" 100 9100;
    known "011124712" 324 94284;
    known "011096120" 330 62370;
    known "011104506" 315 75285;
    known "011127439" 63 23877;
    known "011141348" 60 25440;
    known "011070181" 84 38640;
    known "011084236" 192 23040;
    known "011084235" 270 31050;
    known "011053916" 72 10872;
    known "011053919" 80 3040;
    known "011158844" 120 9600;
    known "011077811" 270 29430;
    known "011091451" 126 20538;
    known "011114037" 320 51840;
    known "011112622" 25 1675;
    known "011096116" 288 68832;
    known "011096117" 96 19008;
    known "011106074" 120 37080;
    known "011054031" 420 130620;
    known "011105398" 135 35910;
    known "011086415" 84 23268;
    known "011083338" 90 40590;
    known "011054038" 54 18846;
    known "011147653" 54 14256;
    known "011124142" 48 14304;
    known "011073715" 150 8250;
    known "011089681" 24 1848;
    known "011128917" 150 17700;
    known "011130862" 80 6800;
    known "011161954" 240 43680;
    known "011049066" 144 12816;
    known "011146832" 114 14592;
    known "011166786" 480 11520;
    known "011163613" 54 15660;
    known "011169125" 126 35658;
    known "011119372" 12 2700;
    known "011076078" 96 15456;
    known "011074672" 108 15336;
    known "011094362" 24 3936;
    known "011046399" 72 13896;
    known "011140121" 24 2568;
    known "011140122" 24 2568;
    known "011162946" 72 12528;
    known "011162943" 72 12528;
    known "011016558" 400 8000;
    known "011039722" 1 2161;
    known "011130854" 200 2800;
    known "011127596" 42 11760;
    known "011127598" 36 10080;
    known "011146627" 12 3180;
    known "000173080" 1 33228
  ].

(** ** [extract_items_from_starbucks_invoice] *)

(** The body of the loop over the matches of one line: an item, unless one
    of the two conversions raises. *)
Definition item_of_match (m : string * string * string) : list item :=
  let '(item_code, g2, g3) := m in
  match py_float g2 with
  | None => []
  | Some qty =>
      match py_float g3 with
      | None => []
      | Some price => [new_item item_code (Flt qty) price]
      end
  end.

Definition known_items_in (text : string) : list item :=
  filter (fun it => Py.contains (Item_Code it) text) sample_items.

Definition pattern_items_in (text : string) : list item :=
  flat_map (fun line => flat_map item_of_match (Py.findall_item_line line))
           (Py.split_lines text).

Definition extract_items_from_starbucks_invoice (text : string) : list item :=
  match known_items_in text with
  | [] => pattern_items_in text
  | items => items
  end.

(** ** [process_starbucks_invoice]: the table-driven pass *)

Definition zero : float := float_of_Q 0.

Definition scan0 : scan :=
  {| items := []; subtotal := zero; tax := zero; total := zero;
     shipping_amount := zero; tables_processed := false |}.

Definition set_subtotal (v : float) (st : scan) : scan :=
  {| items := items st; subtotal := v; tax := tax st; total := total st;
     shipping_amount := shipping_amount st;
     tables_processed := tables_processed st |}.

Definition set_tax (v : float) (st : scan) : scan :=
  {| items := items st; subtotal := subtotal st; tax := v; total := total st;
     shipping_amount := shipping_amount st;
     tables_processed := tables_processed st |}.

Definition set_total (v : float) (st : scan) : scan :=
  {| items := items st; subtotal := subtotal st; tax := tax st; total := v;
     shipping_amount := shipping_amount st;
     tables_processed := tables_processed st |}.

Definition set_shipping (v : float) (st : scan) : scan :=
  {| items := items st; subtotal := subtotal st; tax := tax st;
     total := total st; shipping_amount := v;
     tables_processed := tables_processed st |}.

Definition append_item (it : item) (st : scan) : scan :=
  {| items := items st ++ [it]; subtotal := subtotal st; tax := tax st;
     total := total st; shipping_amount := shipping_amount st;
     tables_processed := true |}.

Definition set_items (l : list item) (st : scan) : scan :=
  {| items := l; subtotal := subtotal st; tax := tax st; total := total st;
     shipping_amount := shipping_amount st;
     tables_processed := tables_processed st |}.

(** [nums = re.findall(r'\d+\.\d{2}', s)] and, when there is one,
    [float(nums[-1])].  The conversion of a match never raises
    ([last_amount_of_match] below), so [None] means that [nums] is empty. *)
Definition last_amount (s : string) : option float :=
  match Py.last_of (Py.findall_decimal s) with
  | Some m => py_float m
  | None => None
  end.

Definition store (set : float -> scan -> scan) (s : string) (st : scan) : scan :=
  match last_amount s with
  | Some v => set v st
  | None => st
  end.

(** The [if]/[elif] chain on [row_str]. *)
Definition route_row_totals (row_s : string) (st : scan) : scan :=
  if Py.contains "SUB TOTAL" row_s then store set_subtotal row_s st
  else if Py.contains "TAX" row_s && negb (Py.contains "SUMMARY" row_s)
       then store set_tax row_s st
  else if Py.contains "TOTAL (CAD)" row_s then store set_total row_s st
  else st.

Definition cell_at (r : row) (i : nat) : cell := nth i r CNone.

(** Truth value of a cell. *)
Definition truthy (c : cell) : bool :=
  match c with
  | CNone => false
  | CInt z => negb (z =? 0)%Z
  | CFloat f => negb (feq0 f)
  | CStr s => negb (String.eqb s EmptyString)
  end.

(** [isinstance(c, (int, float)) or
     (isinstance(c, str) and c.replace('.', '', 1).isdigit())]. *)
Definition is_numeric (c : cell) : bool :=
  match c with
  | CNone => false
  | CInt _ => true
  | CFloat _ => true
  | CStr s => Py.isdigit (Py.remove_first_dot s)
  end.

(** [float(c)]; [None] when it raises. *)
Definition to_float (c : cell) : option float :=
  match c with
  | CNone => None
  | CInt z => float_of_int z
  | CFloat f => Some f
  | CStr s => py_float s
  end.

(** [isinstance(row[0], str) and row[0] and "#" in row[0]]. *)
Definition is_header (r : row) : bool :=
  match cell_at r 0 with
  | CStr s => negb (String.eqb s EmptyString) && Py.contains "#" s
  | _ => false
  end.

(** The [try] block: a [continue] and a caught exception both leave the
    scan as it is. *)
Definition parse_line_item (item_code : string) (r : row) (st : scan) : scan :=
  if negb (Py.is_code9 item_code) then st
  else if negb (truthy (cell_at r 7) && is_numeric (cell_at r 7)) then st
  else match to_float (cell_at r 7) with
  | None => st
  | Some qty =>
  if negb (truthy (cell_at r 9) && is_numeric (cell_at r 9)) then st
  else match to_float (cell_at r 9) with
  | None => st
  | Some amt =>
      if fgt0 qty && fgt0 amt
      then append_item (new_item item_code (Flt qty) amt) st
      else st
  end end.

(** The body of the loop over the rows of a table. *)
Definition process_row (st : scan) (r : row) : scan :=
  if (List.length r <? 10)%nat then st
  else if is_header r then st
  else
    let row_s := row_str r in
    let st := route_row_totals row_s st in
    match cell_at r 1 with
    | CStr item_code =>
        if String.eqb item_code EmptyString then st
        else if Py.contains "SHIPPING" row_s || Py.contains "HDLG" row_s
        then store set_shipping row_s st
        else parse_line_item item_code r st
    | _ => st
    end.

Definition table_pass (tables : list table) : scan :=
  fold_left (fun st t => fold_left process_row t st) tables scan0.

(** ** The totals scan over the text *)

Definition text_totals_line (st : scan) (line : string) : scan :=
  if Py.contains "SUB TOTAL" line then store set_subtotal line st
  else if Py.contains "TAX" line && negb (Py.contains "TAX SUMMARY" line)
       then store set_tax line st
  else if Py.contains "TOTAL (CAD)" line then store set_total line st
  else st.

Definition text_totals (text : string) (st : scan) : scan :=
  if feq0 (subtotal st) || feq0 (tax st) || feq0 (total st)
  then fold_left text_totals_line (Py.split_lines text) st
  else st.

Definition text_shipping_line (st : scan) (line : string) : scan :=
  if Py.contains "SHIPPING" line || Py.contains "HDLG" line
  then store set_shipping line st
  else st.

Definition text_shipping (text : string) (st : scan) : scan :=
  if feq0 (shipping_amount st)
  then fold_left text_shipping_line (Py.split_lines text) st
  else st.

(** ** Reconciliation against the database *)

Definition set_gl (code desc : string) (it : item) : item :=
  {| Item_Code := Item_Code it; Quantity := Quantity it;
     Line_Total := Line_Total it;
     GL_Code := Some code; GL_Description := Some desc |}.

(** [database[database["Item Code"] == item_code]], first row. *)
Definition exact_match (db : database) (item_code : string) : option db_row :=
  find (fun e => String.eqb (db_Item_Code e) item_code) db.

(** [database[database["Item Code"].str.lstrip('0') == item_code_no_zeros]],
    first row. *)
Definition stripped_match (db : database) (item_code : string) : option db_row :=
  let item_code_no_zeros := Py.lstrip0 item_code in
  find (fun e => String.eqb (Py.lstrip0 (db_Item_Code e)) item_code_no_zeros) db.

(** The body of the matching loop. *)
Definition reconcile_item (db : database) (it : item) : item :=
  let item_code := Item_Code it in
  match exact_match db item_code with
  | Some e => set_gl (db_GL_Code e) (db_GL_Description e) it
  | None =>
      match stripped_match db item_code with
      | Some e => set_gl (db_GL_Code e) (db_GL_Description e) it
      | None => set_gl "ASK BOSS" "ASK BOSS FOR PROPER GL" it
      end
  end.

Definition reconcile (db : database) (l : list item) : list item :=
  map (reconcile_item db) l.

(** ** [process_starbucks_invoice] *)

(** Items before the matching loop: the table pass, or the text extraction
    when the table pass accepted nothing. *)
Definition choose_items (text : string) (st : scan) : scan :=
  if negb (tables_processed st) || match items st with [] => true | _ => false end
  then set_items (extract_items_from_starbucks_invoice text) st
  else st.

Definition extraction (text : string) (tables : list table) : scan :=
  text_shipping text (text_totals text (choose_items text (table_pass tables))).

Definition process_starbucks_invoice
           (text : string) (tables : list table) (db : database) : scan :=
  let st := extraction text tables in
  set_items (reconcile db (items st)) st.

(** What [process_starbucks_invoice] prints. *)
Definition process_prints (text : string) (tables : list table) : list string :=
  ["Processing Starbucks invoice"] ++
  (if Py.contains "STARBUCKS COFFEE CANADA" text then []
   else ["Warning: This doesn't appear to be a Starbucks invoice"]) ++
  (let st := table_pass tables in
   if negb (tables_processed st) || match items st with [] => true | _ => false end
   then ["No valid tables found, attempting direct text extraction..."]
   else []).

(** ** [generate_summary] *)

Definition shipping_code : string := "000173080".

(** The summary dictionary, in insertion order. *)
Definition summary : Type := list (string * float).

Fixpoint lookup (k : string) (s : summary) : option float :=
  match s with
  | [] => None
  | (k', v) :: s' => if String.eqb k' k then Some v else lookup k s'
  end.

(** [summary[k] += amount] when [k in summary], [summary[k] = amount]
    otherwise. *)
Fixpoint add_amount (k : string) (amount : float) (s : summary) : summary :=
  match s with
  | [] => [(k, amount)]
  | (k', v) :: s' =>
      if String.eqb k' k then (k', fadd v amount) :: s'
      else (k', v) :: add_amount k amount s'
  end.

(** [item.get("GL Description", "ASK BOSS FOR PROPER GL")]. *)
Definition description_of (it : item) : string :=
  match GL_Description it with
  | Some d => d
  | None => "ASK BOSS FOR PROPER GL"
  end.

(** The body of the loop over the items. *)
Definition summary_step (s : summary) (it : item) : summary :=
  if String.eqb (Item_Code it) shipping_code then s
  else add_amount (description_of it) (Line_Total it) s.

Definition generate_summary (l : list item) : summary :=
  match l with
  | [] => []
  | _ => fold_left summary_step l []
  end.

(** ** [main] *)

(** The part of [main] after [process_starbucks_invoice] has returned a
    non-empty item list. *)
Definition report (st : scan) : list output :=
  let summary := generate_summary (items st) in
  let calculated_subtotal := fold_left (fun acc e => fadd acc (snd e)) summary zero in
  let calculated_total :=
    fadd (fadd calculated_subtotal (shipping_amount st)) (tax st) in
  [Message "=== Extracted Items ===";
   Message "Item Code       QTY shipped     Line Total    GL Code    GL Description";
   Message "--------------------------------------------------------------------------------"] ++
  map Item_line (items st) ++
  [Message "=== Summary by GL Description ==="] ++
  map (fun e => Summary_line (fst e) (snd e)) summary ++
  [Amount "SHIPPING, HDLG" (shipping_amount st);
   Amount "Sub total" calculated_subtotal;
   Amount "Tax" (tax st);
   Amount "Total" calculated_total;
   Message "=== DONE ==="].

(** [main], from the database and the text and tables of the document as
    [load_database] and [extract_text_from_pdf] return them. *)
Definition main (db : database) (text : string) (tables : list table) : list output :=
  let st := process_starbucks_invoice text tables db in
  map Message (process_prints text tables) ++
  match items st with
  | [] => [Message "Error: No items were extracted from the invoice"]
  | _ => report st
  end.

(** ** Vocabulary of the statements *)

(** An accepted row: what [parse_line_item] checked before appending. *)
Definition accepted (item_code : string) (r : row) (qty amt : float) : Prop :=
  Py.is_code9 item_code = true /\
  truthy (cell_at r 7) = true /\ is_numeric (cell_at r 7) = true /\
  to_float (cell_at r 7) = Some qty /\
  truthy (cell_at r 9) = true /\ is_numeric (cell_at r 9) = true /\
  to_float (cell_at r 9) = Some amt /\
  fgt0 qty = true /\ fgt0 amt = true.

(** [quantity > 0] and [lineTotal > 0]. *)
Definition positive_item (it : item) : Prop :=
  exists q, Quantity it = Flt q /\ fgt0 q = true /\ fgt0 (Line_Total it) = true.

(** The line totals that [generate_summary] files under [desc], in order. *)
Definition bucket (desc : string) (l : list item) : list float :=
  map Line_Total
      (filter (fun it => negb (String.eqb (Item_Code it) shipping_code) &&
                         String.eqb (description_of it) desc) l).

(** A bucket after one more amount, and after a list of them. *)
Definition add_opt (acc : option float) (amount : float) : float :=
  match acc with
  | Some v => fadd v amount
  | None => amount
  end.

Definition running_sum (acc : option float) (amounts : list float) : option float :=
  fold_left (fun acc a => Some (add_opt acc a)) amounts acc.

End Invoice.

(** ** Concrete invoices

    Inputs on which the code is evaluated below, under [ExactFloat]. *)

Definition blank : cell := CNone.

(** A header row, a sub-total row and an item row, as in the template. *)
Definition header_row : row :=
  [CStr "Line #"; CStr "Item"; blank; blank; blank; blank; blank;
   CStr "Qty"; blank; CStr "Amount"].

Definition subtotal_row : row :=
  [CStr "SUB TOTAL"; blank; blank; blank; blank; blank; blank; blank; blank;
   CStr "62.56"].

Definition item_row : row :=
  [CStr "1"; CStr "011120225"; CStr "COFFEE"; blank; blank; blank; blank;
   CStr "16"; CStr "3.91"; CStr "62.56"].

(** An item row for a code outside the known-items list. *)
Definition other_item_row : row :=
  [CStr "1"; CStr "123456789"; CStr "SYRUP"; blank; blank; blank; blank;
   CStr "2"; CStr "5.00"; CStr "10.00"].

(** A row that is a valid line item and carries the sub-total label. *)
Definition labelled_item_row : row :=
  [CStr "1"; CStr "011120225"; CStr "SUB TOTAL"; blank; blank; blank; blank;
   CStr "16"; blank; CStr "62.56"].

Definition tax_row : row :=
  [CStr "TAX"; CStr "GST"; blank; blank; blank; blank; blank; blank; blank;
   CStr "3.13"].

Definition total_row : row :=
  [CStr "TOTAL (CAD)"; blank; blank; blank; blank; blank; blank; blank; blank;
   CStr "398.00"].

Definition shipping_row : row :=
  [blank; CStr "SHIPPING, HDLG"; blank; blank; blank; blank; blank; blank;
   blank; CStr "332.28"].

Definition tax_summary_row : row :=
  [CStr "TAX SUMMARY"; CStr "GST"; blank; blank; blank; blank; blank; blank;
   blank; CStr "3.13"].

(** An item row whose quantity cell is empty. *)
Definition no_quantity_row : row :=
  [CStr "1"; CStr "011120225"; CStr "COFFEE"; blank; blank; blank; blank;
   blank; CStr "3.91"; CStr "62.56"].

Definition full_table : table :=
  [header_row; item_row; subtotal_row; tax_row; total_row; shipping_row].

Definition lines (l : list string) : string :=
  String.concat (String Py.newline EmptyString) l.

Definition reference : database :=
  [ {| db_Item_Code := "11120225"; db_GL_Code := "5010";
       db_GL_Description := "COFFEE AND TEA" |};
    {| db_Item_Code := "0011120225"; db_GL_Code := "5020";
       db_GL_Description := "PAPER GOODS" |} ].

(** A text whose totals differ from those of [full_table]. *)
Definition other_totals : string :=
  lines ["SUB TOTAL 1.00"; "TAX 2.00"; "TOTAL (CAD) 3.00"; "SHIPPING, HDLG 4.00"].

Definition shipping_item : item := known "000173080" 1 33228.
Definition unknown_item : item := new_item "999999999" (Flt (Qred 2)) (Qred 10).
Definition coffee_item : item := known "011120225" 16 6256.

(** ** [load_database]

    The sheet is what [pd.read_excel] returns: its column names and its rows,
    each row giving the text of a cell by column name (the Item Code column
    as [astype(str)] shows it). *)

Record sheet : Type := {
  sheet_columns : list string;
  sheet_rows : list (string -> string)
}.

Definition required_columns : list string :=
  ["Item Code"; "GL Code"; "GL Description"].

Fixpoint zeros (n : nat) : string :=
  match n with
  | O => EmptyString
  | S n' => String "0" (zeros n')
  end.

(** [s.zfill(width)]: the padding goes after a leading sign. *)
Definition zfill (width : nat) (s : string) : string :=
  let pad := zeros (width - String.length s) in
  match s with
  | String c s' =>
      if Ascii.eqb c "+" || Ascii.eqb c "-" then String c (pad ++ s')
      else pad ++ s
  | EmptyString => pad
  end.

(** [lambda x: x.zfill(9) if x.isdigit() and len(x) < 9 else x]. *)
Definition canon_code (x : string) : string :=
  if Py.isdigit x && (String.length x <? 9)%nat then zfill 9 x else x.

Definition load_row (r : string -> string) : db_row :=
  {| db_Item_Code := canon_code (r "Item Code");
     db_GL_Code := r "GL Code";
     db_GL_Description := r "GL Description" |}.

(** [load_database]; [None] is the [sys.exit(1)] taken when a required
    column is missing.  Every cell of a sheet of this model holds text: a
    blank Item Code cell, on which the padding raises so that the run stops
    as well, is not among them. *)
Definition load_database (sh : sheet) : option database :=
  if forallb (fun col => existsb (String.eqb col) (sheet_columns sh)) required_columns
  then Some (map load_row (sheet_rows sh))
  else None.

(** ** [extract_text_from_pdf] *)

Section Document.

Context {PF : PyFloat}.

(** A page: what [extract_text] returns ([None] for a page without text)
    and what [extract_tables] returns. *)
Definition page : Type := option string * list table.

(** The loop over the pages; [None] is the [sys.exit(1)] taken when
    [page.extract_text() + "\n"] raises. *)
Fixpoint extract_pages (pages : list page) (all_text : string)
         (tables : list table) : option (string * list table) :=
  match pages with
  | [] => Some (all_text, tables)
  | (Some t, ts) :: pages' =>
      extract_pages pages' (all_text ++ t ++ String Py.newline EmptyString)
                    (tables ++ ts)%list
  | (None, _) :: _ => None
  end.

Definition extract_text_from_pdf (pages : list page) : option (string * list table) :=
  extract_pages pages EmptyString [].

(** ** More vocabulary *)

Definition Newline : string := String Py.newline EmptyString.

(** The text of a document whose pages have the texts [texts]. *)
Definition joined (texts : list string) : string :=
  String.concat EmptyString (map (fun t => t ++ Newline) texts).

Definition no_newline (s : string) : Prop :=
  forallb (fun c => negb (Ascii.eqb c Py.newline)) (list_ascii_of_string s) = true.

Definition digits (s : string) : Prop :=
  forallb Py.is_digit (list_ascii_of_string s) = true.

(** Text between the fields of an item line: neither a digit nor a dot. *)
Definition separator (s : string) : Prop :=
  s <> EmptyString /\
  forallb (fun c => negb (Py.digit_or_dot c)) (list_ascii_of_string s) = true.

(** The second cell of a row when it is a non-empty string: the cell that
    the loop takes for the item code. *)
Definition second_cell (r : row) : option string :=
  match cell_at r 1 with
  | CStr c => if String.eqb c EmptyString then None else Some c
  | _ => None
  end.

Definition shipping_label (s : string) : bool :=
  Py.contains "SHIPPING" s || Py.contains "HDLG" s.

(** The running subtotal after one more bucket, when there is one. *)
Definition add_bucket (acc : float) (amount : option float) : float :=
  match amount with
  | Some v => fadd acc v
  | None => acc
  end.

(** Non-empty text without a digit. *)
Definition gap (s : string) : Prop :=
  s <> EmptyString /\
  forallb Py.non_digit (list_ascii_of_string s) = true.

(** A number as the line pattern captures it: digits and dots, a digit
    first. *)
Definition number_text (s : string) : Prop :=
  (exists c s', s = String c s' /\ Py.is_digit c = true) /\
  forallb Py.digit_or_dot (list_ascii_of_string s) = true.

(** Text that is empty or ends with a character that is neither a digit nor
    a dot. *)
Definition ends_apart (s : string) : Prop :=
  s = EmptyString \/
  exists s' c, s = s' ++ String c EmptyString /\ Py.digit_or_dot c = false.

(** [0.0] or the float of a non-negative amount with two decimals. *)
Definition amount_value (v : float) : Prop :=
  v = zero \/ exists cents : Z, (0 <= cents)%Z /\ v = float_of_Q (Qmake cents 100).

(** The descriptions under which [generate_summary] files the items. *)
Definition summarised (l : list item) : list string :=
  map description_of
      (filter (fun it => negb (String.eqb (Item_Code it) shipping_code)) l).

(** The distinct elements in the order of their first occurrence. *)
Definition add_key (acc : list string) (k : string) : list string :=
  if existsb (String.eqb k) acc then acc else (acc ++ [k])%list.

Definition first_seen (keys : list string) : list string :=
  fold_left add_key keys [].

(** The four accumulators hold amounts. *)
Definition amounts (st : scan) : Prop :=
  amount_value (subtotal st) /\ amount_value (tax st) /\
  amount_value (total st) /\ amount_value (shipping_amount st).

(** [calculated_subtotal] of [main]. *)
Definition calculated_subtotal (s : summary) : float :=
  fold_left (fun acc e => fadd acc (snd e)) s zero.

End Document.

(** Two pages of one invoice. *)
Definition first_page_text : string :=
  lines ["STARBUCKS COFFEE CANADA"; "123456789 SYRUP 2 10.00"].

Definition first_page : page :=
  (Some first_page_text,
   [[header_row; other_item_row]]).

Definition second_page : page :=
  (Some (lines ["SUB TOTAL 10.00"; "SHIPPING, HDLG 1,332.28"]), [[shipping_row]]).


Definition narrow_row : row := [CStr "1"; CStr "011120225"; CStr "16"; CStr "62.56"].

Definition coffee_sheet_row (col : string) : string :=
  if String.eqb col "Item Code" then "11120225"
  else if String.eqb col "GL Code" then "5010"
  else if String.eqb col "GL Description" then "COFFEE AND TEA"
  else "COFFEE".

Definition freight_sheet_row (col : string) : string :=
  if String.eqb col "Item Code" then "173080"
  else if String.eqb col "GL Code" then "6000"
  else if String.eqb col "GL Description" then "FREIGHT"
  else "SHIPPING".

Definition raw_sheet : sheet :=
  {| sheet_columns := ["Item Code"; "Description"; "GL Code"; "GL Description"];
     sheet_rows := [coffee_sheet_row; freight_sheet_row] |}.

Definition coffee_row_item : item :=
  new_item "011120225" (Flt (float_of_Q 16)) (float_of_Q (6256 # 100)).
Definition syrup_line : string := "123456789 SYRUP 2 10.00".
Definition dotted_line : string := "123456789 SYRUP .5 10.00".
Definition syrup_item : item := new_item "123456789" (Flt (float_of_Q 2)) (float_of_Q 10).
Definition shipping_lines : string := lines ["SHIPPING 1.00"; "HDLG 2.00"; "THANK YOU"].

Definition sheet_without_gl : sheet :=
  {| sheet_columns := ["Item Code"; "Description"];
     sheet_rows := [] |}.

(** A database in which an entry that matches only after zero-stripping
    comes before the entry with the very code. *)
Definition padded_first : database :=
  [ {| db_Item_Code := "0011120225"; db_GL_Code := "5020";
       db_GL_Description := "PAPER GOODS" |};
    {| db_Item_Code := "011120225"; db_GL_Code := "5010";
       db_GL_Description := "COFFEE AND TEA" |} ].

(** * Properties *)

(** ** The string primitives *)

Section Regex.

Lemma append_assoc (a b c : string) : (a ++ b) ++ c = a ++ (b ++ c).
Proof. induction a as [|x a IH]; simpl; [reflexivity | now rewrite IH]. Qed.

Lemma last_of_In {A : Type} (l : list A) (x : A) :
  Py.last_of l = Some x -> In x l.
Proof.
  unfold Py.last_of. intros H. apply in_rev.
  destruct (rev l) as [|y l'].
  - discriminate.
  - injection H as ->. now left.
Qed.

Lemma last_of_app {A : Type} (l : list A) (x : A) :
  Py.last_of (l ++ [x]) = Some x.
Proof. unfold Py.last_of. now rewrite rev_app_distr. Qed.

(** Whatever [plus] returns was returned by its continuation on a non-empty
    run of characters of the class. *)
Lemma plus_inv {R : Type} (cls : ascii -> bool) (k : string -> string -> option R) :
  forall s acc r,
    Py.plus cls k acc s = Some r ->
    exists g rest,
      g <> EmptyString /\ forallb cls (list_ascii_of_string g) = true /\
      s = g ++ rest /\ k (acc ++ g) rest = Some r.
Proof.
  induction s as [|c s IH]; simpl; intros acc r H.
  - discriminate.
  - destruct (cls c) eqn:Hc; [|discriminate].
    destruct (Py.plus cls k (acc ++ String c EmptyString) s) as [r'|] eqn:Hp.
    + injection H as ->. apply IH in Hp.
      destruct Hp as (g & rest & Hg & Hall & Hs & Hk).
      exists (String c g), rest. repeat split.
      * discriminate.
      * simpl. now rewrite Hc.
      * simpl. now rewrite Hs.
      * rewrite <- Hk. f_equal. now rewrite append_assoc.
    + exists (String c EmptyString), s. repeat split.
      * discriminate.
      * simpl. now rewrite Hc.
      * exact H.
Qed.

Lemma parse_digits (g : string) :
  forallb Py.is_digit (list_ascii_of_string g) = true ->
  forall sd m f nd, (0 < nd + String.length g)%nat ->
    exists q, Py.parse_decimal_from sd m f nd g = Some q.
Proof.
  induction g as [|c g IH]; simpl; intros Hall sd m f nd Hlen.
  - destruct nd; [lia|]. eauto.
  - apply andb_true_iff in Hall as [Hc Hall]. rewrite Hc.
    apply IH; [assumption | lia].
Qed.

Lemma parse_digits_dot_digits (g h : string) :
  forallb Py.is_digit (list_ascii_of_string g) = true ->
  forallb Py.is_digit (list_ascii_of_string h) = true ->
  forall m f nd, (0 < nd + String.length g + String.length h)%nat ->
    exists q, Py.parse_decimal_from false m f nd (g ++ String "." h) = Some q.
Proof.
  induction g as [|c g IH]; simpl; intros Hg Hh m f nd Hlen.
  - apply parse_digits; [assumption | lia].
  - apply andb_true_iff in Hg as [Hc Hg]. rewrite Hc.
    apply IH; [assumption | assumption | lia].
Qed.

(** [float] never raises on a match of [\d+\.\d{2}]. *)
Lemma decimal_at_parses (s m : string) :
  Py.decimal_at s = Some m -> exists q, Py.parse_decimal m = Some q.
Proof.
  unfold Py.decimal_at. intros H. apply plus_inv in H.
  destruct H as (g & rest & _ & Hall & _ & Hk).
  destruct rest as [|p [|d1 [|d2 rest]]]; try discriminate.
  destruct (Py.is_dot p) eqn:Hp; [|discriminate].
  destruct (Py.is_digit d1) eqn:H1; [|discriminate].
  destruct (Py.is_digit d2) eqn:H2; [|discriminate].
  simpl in Hk. injection Hk as <-.
  unfold Py.is_dot in Hp. apply Ascii.eqb_eq in Hp. subst p.
  apply parse_digits_dot_digits.
  - exact Hall.
  - simpl. now rewrite H1, H2.
  - simpl. lia.
Qed.

Lemma findall_decimal_parses (s m : string) :
  In m (Py.findall_decimal s) -> exists q, Py.parse_decimal m = Some q.
Proof.
  unfold Py.findall_decimal. generalize 0%nat as skip.
  induction s as [|c s IH]; simpl; intros skip H.
  - contradiction.
  - destruct skip as [|k].
    + destruct (Py.decimal_at (String c s)) as [m'|] eqn:Hd.
      * destruct H as [<-|H].
        -- eapply decimal_at_parses; eassumption.
        -- eapply IH; eassumption.
      * eapply IH; eassumption.
    + eapply IH; eassumption.
Qed.

End Regex.

Local Open Scope list_scope.

(** ** The scan: what each step may touch *)

Section Frames.

Context {PF : PyFloat}.

Ltac unstore :=
  unfold store; destruct (last_amount _); simpl; try reflexivity.

Lemma route_row_totals_frame (s : string) (st : scan) :
  items (route_row_totals s st) = items st /\
  shipping_amount (route_row_totals s st) = shipping_amount st /\
  tables_processed (route_row_totals s st) = tables_processed st.
Proof.
  unfold route_row_totals.
  destruct (Py.contains "SUB TOTAL" s); [unstore; auto|].
  destruct (Py.contains "TAX" s && negb (Py.contains "SUMMARY" s)); [unstore; auto|].
  destruct (Py.contains "TOTAL (CAD)" s); [unstore; auto|].
  auto.
Qed.

Lemma store_shipping_frame (s : string) (st : scan) :
  items (store set_shipping s st) = items st /\
  subtotal (store set_shipping s st) = subtotal st /\
  tax (store set_shipping s st) = tax st /\
  total (store set_shipping s st) = total st /\
  tables_processed (store set_shipping s st) = tables_processed st.
Proof. unstore; auto 6. Qed.

Lemma parse_line_item_cases (item_code : string) (r : row) (st : scan) :
  parse_line_item item_code r st = st \/
  exists qty amt,
    accepted item_code r qty amt /\
    parse_line_item item_code r st =
      append_item (new_item item_code (Flt qty) amt) st.
Proof.
  unfold parse_line_item, accepted.
  destruct (Py.is_code9 item_code); simpl; [|now left].
  destruct (truthy (cell_at r 7)); simpl; [|now left].
  destruct (is_numeric (cell_at r 7)); simpl; [|now left].
  destruct (to_float (cell_at r 7)) as [qty|]; [|now left].
  destruct (truthy (cell_at r 9)); simpl; [|now left].
  destruct (is_numeric (cell_at r 9)); simpl; [|now left].
  destruct (to_float (cell_at r 9)) as [amt|]; [|now left].
  destruct (fgt0 qty) eqn:Hq; simpl; [|now left].
  destruct (fgt0 amt) eqn:Ha; simpl; [|now left].
  right. exists qty, amt. repeat split; solve [reflexivity | assumption].
Qed.

Lemma parse_line_item_totals (item_code : string) (r : row) (st : scan) :
  subtotal (parse_line_item item_code r st) = subtotal st /\
  tax (parse_line_item item_code r st) = tax st /\
  total (parse_line_item item_code r st) = total st /\
  shipping_amount (parse_line_item item_code r st) = shipping_amount st.
Proof.
  destruct (parse_line_item_cases item_code r st) as [->|(q & a & _ & ->)];
    simpl; auto.
Qed.

(** The four ways out of the loop body. *)
Lemma process_row_cases (st : scan) (r : row) :
  let st1 := route_row_totals (row_str r) st in
  process_row st r = st \/
  process_row st r = st1 \/
  process_row st r = store set_shipping (row_str r) st1 \/
  exists item_code,
    cell_at r 1 = CStr item_code /\
    Py.contains "SHIPPING" (row_str r) || Py.contains "HDLG" (row_str r) = false /\
    process_row st r = parse_line_item item_code r st1.
Proof.
  unfold process_row.
  destruct (List.length r <? 10)%nat; [now left|].
  destruct (is_header r); [now left|].
  destruct (cell_at r 1) as [| | |item_code]; try (right; now left).
  destruct (String.eqb item_code EmptyString); [right; now left|].
  destruct (Py.contains "SHIPPING" (row_str r) || Py.contains "HDLG" (row_str r)) eqn:Hs.
  - right; right; now left.
  - right; right; right. now exists item_code.
Qed.

(** A row adds at most one item, and only an accepted one. *)
Lemma process_row_items (st : scan) (r : row) :
  (items (process_row st r) = items st /\
   tables_processed (process_row st r) = tables_processed st) \/
  exists item_code qty amt,
    cell_at r 1 = CStr item_code /\
    accepted item_code r qty amt /\
    items (process_row st r) = items st ++ [new_item item_code (Flt qty) amt] /\
    tables_processed (process_row st r) = true.
Proof.
  pose proof (route_row_totals_frame (row_str r) st) as (Hi & _ & Ht).
  pose proof (store_shipping_frame (row_str r) (route_row_totals (row_str r) st))
    as (Hi' & _ & _ & _ & Ht').
  destruct (process_row_cases st r) as [-> | [-> | [-> | (c & Hc & _ & ->)]]].
  - now left.
  - now left.
  - left. now rewrite Hi', Ht'.
  - destruct (parse_line_item_cases c r (route_row_totals (row_str r) st))
      as [-> | (q & a & Hacc & ->)].
    + now left.
    + right. exists c, q, a. simpl. now rewrite Hi.
Qed.

(** Invariants of the loop over the rows are invariants of the table pass. *)
Lemma table_pass_ind (P : scan -> Prop) :
  P scan0 ->
  (forall st r, P st -> P (process_row st r)) ->
  forall tables, P (table_pass tables).
Proof.
  intros H0 Hstep tables. unfold table_pass.
  generalize scan0 H0. induction tables as [|t tables IH]; simpl; intros st Hst.
  - exact Hst.
  - apply IH. clear IH. revert st Hst.
    induction t as [|r t IHt]; simpl; intros st Hst; auto.
Qed.

(** [tables_processed] is set exactly when an item was accepted. *)
Lemma table_pass_processed (tables : list table) :
  tables_processed (table_pass tables) = true <->
  items (table_pass tables) <> [].
Proof.
  apply table_pass_ind.
  - simpl. split; [discriminate | congruence].
  - intros st r IH.
    destruct (process_row_items st r) as [(-> & ->) | (c & q & a & _ & _ & -> & ->)].
    + exact IH.
    + split; [|reflexivity]. intros _ H. now apply app_eq_nil in H as [_ H].
Qed.

Lemma text_totals_line_frame (st : scan) (line : string) :
  items (text_totals_line st line) = items st /\
  shipping_amount (text_totals_line st line) = shipping_amount st.
Proof.
  unfold text_totals_line.
  destruct (Py.contains "SUB TOTAL" line); [unstore; auto|].
  destruct (Py.contains "TAX" line && negb (Py.contains "TAX SUMMARY" line));
    [unstore; auto|].
  destruct (Py.contains "TOTAL (CAD)" line); [unstore; auto|].
  auto.
Qed.

Lemma text_totals_frame (text : string) (st : scan) :
  items (text_totals text st) = items st /\
  shipping_amount (text_totals text st) = shipping_amount st.
Proof.
  unfold text_totals.
  destruct (feq0 (subtotal st) || feq0 (tax st) || feq0 (total st)); [|auto].
  generalize (Py.split_lines text) as ls. intros ls. revert st.
  induction ls as [|l ls IH]; simpl; intros st; [auto|].
  destruct (IH (text_totals_line st l)) as (-> & ->).
  apply text_totals_line_frame.
Qed.

Lemma text_shipping_line_frame (st : scan) (line : string) :
  items (text_shipping_line st line) = items st /\
  subtotal (text_shipping_line st line) = subtotal st /\
  tax (text_shipping_line st line) = tax st /\
  total (text_shipping_line st line) = total st.
Proof.
  unfold text_shipping_line.
  destruct (Py.contains "SHIPPING" line || Py.contains "HDLG" line); [|auto].
  unstore; auto.
Qed.

Lemma text_shipping_frame (text : string) (st : scan) :
  items (text_shipping text st) = items st /\
  subtotal (text_shipping text st) = subtotal st /\
  tax (text_shipping text st) = tax st /\
  total (text_shipping text st) = total st.
Proof.
  unfold text_shipping.
  destruct (feq0 (shipping_amount st)); [|auto].
  generalize (Py.split_lines text) as ls. intros ls. revert st.
  induction ls as [|l ls IH]; simpl; intros st; [auto|].
  destruct (IH (text_shipping_line st l)) as (-> & -> & -> & ->).
  apply text_shipping_line_frame.
Qed.

(** The items the matching loop receives. *)
Lemma extraction_items (text : string) (tables : list table) :
  items (extraction text tables) =
  match items (table_pass tables) with
  | [] => extract_items_from_starbucks_invoice text
  | l => l
  end.
Proof.
  unfold extraction.
  destruct (text_shipping_frame text
              (text_totals text (choose_items text (table_pass tables)))) as (-> & _).
  destruct (text_totals_frame text (choose_items text (table_pass tables))) as (-> & _).
  unfold choose_items.
  pose proof (table_pass_processed tables) as Hp.
  destruct (items (table_pass tables)) as [|it l] eqn:Hi.
  - rewrite orb_true_r. reflexivity.
  - destruct (tables_processed (table_pass tables)).
    + simpl. exact Hi.
    + exfalso. assert (false = true) by (apply Hp; discriminate). discriminate.
Qed.

End Frames.

(** ** The line-item extractor and the totals extractor *)

Section Extraction.

Context {PF : PyFloat}.

Lemma choose_items_totals (text : string) (st : scan) :
  subtotal (choose_items text st) = subtotal st /\
  tax (choose_items text st) = tax st /\
  total (choose_items text st) = total st /\
  shipping_amount (choose_items text st) = shipping_amount st.
Proof.
  unfold choose_items.
  destruct (negb (tables_processed st) ||
            match items st with [] => true | _ :: _ => false end); simpl; auto.
Qed.

Lemma parse_line_item_items (item_code : string) (r : row) (st st' : scan) :
  items st = items st' ->
  items (parse_line_item item_code r st) = items (parse_line_item item_code r st').
Proof.
  intros H. unfold parse_line_item.
  destruct (negb (Py.is_code9 item_code)); [exact H|].
  destruct (negb (truthy (cell_at r 7) && is_numeric (cell_at r 7))); [exact H|].
  destruct (to_float (cell_at r 7)) as [qty|]; [|exact H].
  destruct (negb (truthy (cell_at r 9) && is_numeric (cell_at r 9))); [exact H|].
  destruct (to_float (cell_at r 9)) as [amt|]; [|exact H].
  destruct (fgt0 qty && fgt0 amt); [|exact H].
  simpl. now rewrite H.
Qed.

Lemma last_amount_of_match (s m : string) :
  Py.last_of (Py.findall_decimal s) = Some m ->
  exists v, py_float m = Some v /\ last_amount s = Some v.
Proof.
  intros H. unfold last_amount. rewrite H.
  apply last_of_In, findall_decimal_parses in H. destruct H as [q Hq].
  unfold py_float. rewrite Hq. simpl. eauto.
Qed.

(** C1 (amended).  The known-items list is consulted only when the
    table-driven pass has accepted no item, and then before the text-pattern
    pass.  It yields exactly the entries of the fixed list whose code is a
    substring of the raw text; when it yields at least one item and the table
    pass yielded none, these entries (reconciled) are the result and the
    text-pattern pass contributes nothing.  When the table pass accepted
    items, they are the result and the known-items list contributes nothing. *)
Theorem C1_known_items_follow_the_table_pass
        (text : string) (tables : list table) (db : database) :
  known_items_in text <> [] ->
  (forall it, In it (known_items_in text) <->
              In it sample_items /\ Py.contains (Item_Code it) text = true) /\
  (items (table_pass tables) = [] ->
   items (extraction text tables) = known_items_in text /\
   items (process_starbucks_invoice text tables db) =
     reconcile db (known_items_in text)) /\
  (items (table_pass tables) <> [] ->
   items (extraction text tables) = items (table_pass tables) /\
   items (process_starbucks_invoice text tables db) =
     reconcile db (items (table_pass tables))).
Proof.
  intros Hk. split; [|split].
  - intros it. unfold known_items_in. apply filter_In.
  - intros Ht.
    assert (He : items (extraction text tables) = known_items_in text).
    { rewrite extraction_items, Ht. unfold extract_items_from_starbucks_invoice.
      destruct (known_items_in text); [contradiction | reflexivity]. }
    split; [exact He|]. unfold process_starbucks_invoice. simpl. now rewrite He.
  - intros Ht.
    assert (He : items (extraction text tables) = items (table_pass tables)).
    { rewrite extraction_items.
      destruct (items (table_pass tables)); [contradiction | reflexivity]. }
    split; [exact He|]. unfold process_starbucks_invoice. simpl. now rewrite He.
Qed.

(** C2 (amended).  A non-zero shipping/handling value set by the table pass
    is left unchanged by the text scan.  Subtotal, tax and total share one
    trigger: when all three are non-zero after the table pass, the text scan
    leaves all three unchanged. *)
Theorem C2_text_scan_is_a_fallback (text : string) (tables : list table) :
  (feq0 (shipping_amount (table_pass tables)) = false ->
   shipping_amount (extraction text tables) = shipping_amount (table_pass tables)) /\
  (feq0 (subtotal (table_pass tables)) = false ->
   feq0 (tax (table_pass tables)) = false ->
   feq0 (total (table_pass tables)) = false ->
   subtotal (extraction text tables) = subtotal (table_pass tables) /\
   tax (extraction text tables) = tax (table_pass tables) /\
   total (extraction text tables) = total (table_pass tables)).
Proof.
  unfold extraction.
  destruct (choose_items_totals text (table_pass tables)) as (Hs & Ht & Ho & Hh).
  set (st := choose_items text (table_pass tables)) in *.
  split.
  - intros Hz.
    destruct (text_totals_frame text st) as (_ & Hf).
    unfold text_shipping. rewrite Hf, Hh, Hz. now rewrite Hf.
  - intros Hz1 Hz2 Hz3.
    destruct (text_shipping_frame text (text_totals text st)) as (_ & -> & -> & ->).
    unfold text_totals. rewrite Hs, Ht, Ho, Hz1, Hz2, Hz3. simpl. auto.
Qed.

Lemma process_row_eq (st : scan) (r : row) :
  (10 <= List.length r)%nat ->
  is_header r = false ->
  process_row st r =
  match cell_at r 1 with
  | CStr c =>
      if String.eqb c EmptyString then route_row_totals (row_str r) st
      else if Py.contains "SHIPPING" (row_str r) || Py.contains "HDLG" (row_str r)
      then store set_shipping (row_str r) (route_row_totals (row_str r) st)
      else parse_line_item c r (route_row_totals (row_str r) st)
  | _ => route_row_totals (row_str r) st
  end.
Proof.
  intros Hlen Hhdr. unfold process_row. rewrite Hhdr.
  destruct (Nat.ltb_spec (List.length r) 10); [lia | reflexivity].
Qed.

(** Past the length and header checks, the three totals are those of the
    [if]/[elif] chain. *)
Lemma process_row_totals (st : scan) (r : row) :
  (10 <= List.length r)%nat ->
  is_header r = false ->
  let st1 := route_row_totals (row_str r) st in
  subtotal (process_row st r) = subtotal st1 /\
  tax (process_row st r) = tax st1 /\
  total (process_row st r) = total st1.
Proof.
  intros Hlen Hhdr st1. rewrite (process_row_eq st r Hlen Hhdr). fold st1.
  destruct (cell_at r 1) as [| | |c]; auto.
  destruct (String.eqb c EmptyString); auto.
  destruct (Py.contains "SHIPPING" (row_str r) || Py.contains "HDLG" (row_str r)).
  - destruct (store_shipping_frame (row_str r) st1) as (_ & -> & -> & -> & _). auto.
  - destruct (parse_line_item_totals c r st1) as (-> & -> & -> & _). auto.
Qed.

Lemma parse_line_item_processed (item_code : string) (r : row) (st st' : scan) :
  tables_processed st = tables_processed st' ->
  tables_processed (parse_line_item item_code r st) =
  tables_processed (parse_line_item item_code r st').
Proof.
  intros H. unfold parse_line_item.
  destruct (negb (Py.is_code9 item_code)); [exact H|].
  destruct (negb (truthy (cell_at r 7) && is_numeric (cell_at r 7))); [exact H|].
  destruct (to_float (cell_at r 7)) as [qty|]; [|exact H].
  destruct (negb (truthy (cell_at r 9) && is_numeric (cell_at r 9))); [exact H|].
  destruct (to_float (cell_at r 9)) as [amt|]; [|exact H].
  destruct (fgt0 qty && fgt0 amt); [reflexivity | exact H].
Qed.

(** The [if]/[elif] chain, accumulator by accumulator. *)
Lemma route_row_totals_values (s : string) (st : scan) :
  (forall v, last_amount s = Some v ->
     subtotal (route_row_totals s st) =
       (if Py.contains "SUB TOTAL" s then v else subtotal st) /\
     tax (route_row_totals s st) =
       (if negb (Py.contains "SUB TOTAL" s) &&
           (Py.contains "TAX" s && negb (Py.contains "SUMMARY" s))
        then v else tax st) /\
     total (route_row_totals s st) =
       (if negb (Py.contains "SUB TOTAL" s) &&
           negb (Py.contains "TAX" s && negb (Py.contains "SUMMARY" s)) &&
           Py.contains "TOTAL (CAD)" s
        then v else total st)) /\
  (last_amount s = None -> route_row_totals s st = st).
Proof.
  unfold route_row_totals, store. split.
  - intros v ->.
    destruct (Py.contains "SUB TOTAL" s),
      (Py.contains "TAX" s && negb (Py.contains "SUMMARY" s)),
      (Py.contains "TOTAL (CAD)" s); simpl; auto.
  - intros ->.
    destruct (Py.contains "SUB TOTAL" s),
      (Py.contains "TAX" s && negb (Py.contains "SUMMARY" s)),
      (Py.contains "TOTAL (CAD)" s); reflexivity.
Qed.

(** C3 (amended).  In the table-driven pass, for every row of at least ten
    cells that is not a header row: when its flattened text contains
    "SUB TOTAL", or else "TAX" without "SUMMARY", or else "TOTAL (CAD)" (the
    first of these only), the last decimal-formatted number of the row is
    stored in the corresponding accumulator, and the other two keep their
    values; when its second cell is a non-empty string and its text contains
    "SHIPPING" or "HDLG", that number is stored in the shipping accumulator,
    which is otherwise kept, and the row is skipped, never accepted as a line
    item.  A row whose second cell is missing, empty or not a string is never
    accepted either.  Any other row, also one that carries one of the first
    three labels, is accepted or not by the line-item checks alone.  A row
    without a decimal-formatted number changes no accumulator. *)
Theorem C3_aggregate_rows (st : scan) (r : row) :
  (10 <= List.length r)%nat ->
  is_header r = false ->
  let s := row_str r in
  let st' := process_row st r in
  let sub_total := Py.contains "SUB TOTAL" s in
  let tax_only := Py.contains "TAX" s && negb (Py.contains "SUMMARY" s) in
  let total_cad := Py.contains "TOTAL (CAD)" s in
  let shipping_row :=
    match second_cell r with
    | Some _ => shipping_label s
    | None => false
    end in
  (forall m, Py.last_of (Py.findall_decimal s) = Some m ->
     exists v, py_float m = Some v /\
       subtotal st' = (if sub_total then v else subtotal st) /\
       tax st' = (if negb sub_total && tax_only then v else tax st) /\
       total st' =
         (if negb sub_total && negb tax_only && total_cad then v else total st) /\
       shipping_amount st' = (if shipping_row then v else shipping_amount st)) /\
  (Py.last_of (Py.findall_decimal s) = None ->
   subtotal st' = subtotal st /\ tax st' = tax st /\ total st' = total st /\
   shipping_amount st' = shipping_amount st) /\
  items st' =
    match second_cell r with
    | None => items st
    | Some c => if shipping_label s then items st
                else items (parse_line_item c r st)
    end /\
  tables_processed st' =
    match second_cell r with
    | None => tables_processed st
    | Some c => if shipping_label s then tables_processed st
                else tables_processed (parse_line_item c r st)
    end.
Proof.
  intros Hlen Hhdr s st' sub_total tax_only total_cad shipping_row.
  pose proof (process_row_totals st r Hlen Hhdr) as (Hsub & Htax & Htot).
  fold s in Hsub, Htax, Htot. fold st' in Hsub, Htax, Htot.
  pose proof (route_row_totals_frame s st) as (Hitems & Hshipping & Hproc).
  destruct (route_row_totals_values s st) as (Hsome & Hnone).
  set (st1 := route_row_totals s st) in *.
  assert (Heq : st' =
    match second_cell r with
    | None => st1
    | Some c => if shipping_label s then store set_shipping s st1
                else parse_line_item c r st1
    end).
  { subst st' st1 s. rewrite (process_row_eq st r Hlen Hhdr).
    unfold second_cell, shipping_label.
    destruct (cell_at r 1) as [| | |c]; try reflexivity.
    destruct (String.eqb c EmptyString); reflexivity. }
  assert (Hship : forall v, last_amount s = Some v ->
            shipping_amount st' = (if shipping_row then v else shipping_amount st)).
  { intros v Hv. subst shipping_row. rewrite Heq.
    destruct (second_cell r) as [c|]; [|exact Hshipping].
    destruct (shipping_label s).
    - unfold store. now rewrite Hv.
    - destruct (parse_line_item_totals c r st1) as (_ & _ & _ & ->). exact Hshipping. }
  split; [|split; [|split]].
  - intros m Hm. destruct (last_amount_of_match s m Hm) as (v & Hv & Hlast).
    destruct (Hsome v Hlast) as (H1 & H2 & H3).
    exists v. split; [exact Hv|].
    rewrite Hsub, Htax, Htot. repeat split; auto.
  - intros Hm.
    assert (Hlast : last_amount s = None) by (unfold last_amount; now rewrite Hm).
    rewrite Hsub, Htax, Htot. fold st1. rewrite (Hnone Hlast).
    repeat split. rewrite Heq, (Hnone Hlast).
    destruct (second_cell r) as [c|]; [|reflexivity].
    destruct (shipping_label s).
    + unfold store. now rewrite Hlast.
    + now destruct (parse_line_item_totals c r st) as (_ & _ & _ & ->).
  - rewrite Heq. destruct (second_cell r) as [c|]; [|exact Hitems].
    destruct (shipping_label s).
    + destruct (store_shipping_frame s st1) as (-> & _). exact Hitems.
    + now apply parse_line_item_items.
  - rewrite Heq. destruct (second_cell r) as [c|]; [|exact Hproc].
    destruct (shipping_label s).
    + destruct (store_shipping_frame s st1) as (_ & _ & _ & _ & ->). exact Hproc.
    + now apply parse_line_item_processed.
Qed.

(** C7.  Every item of the table-driven pass has a quantity and a line total
    that are strictly positive, and a row whose quantity cell (the eighth) or
    amount cell (the tenth) is missing or not numeric adds no item. *)
Theorem C7_table_items_are_positive (tables : list table) :
  (forall it, In it (items (table_pass tables)) -> positive_item it) /\
  (forall st r,
     is_numeric (cell_at r 7) = false \/ is_numeric (cell_at r 9) = false ->
     items (process_row st r) = items st).
Proof.
  split.
  - apply (table_pass_ind (fun st => forall it, In it (items st) -> positive_item it)).
    + intros it [].
    + intros st r IH it.
      destruct (process_row_items st r)
        as [(-> & _) | (c & q & a & _ & Hacc & -> & _)]; [apply IH|].
      intros Hin. apply in_app_or in Hin as [Hin | [<- | []]]; [now apply IH|].
      destruct Hacc as (_ & _ & _ & _ & _ & _ & _ & Hq & Ha).
      exists q. simpl. auto.
  - intros st r Hnum.
    destruct (process_row_items st r)
      as [(H & _) | (c & q & a & _ & Hacc & _ & _)]; [exact H|].
    destruct Hacc as (_ & _ & H7 & _ & _ & H9 & _).
    destruct Hnum as [Hnum | Hnum]; congruence.
Qed.

(** C9 (amended).  A table row whose text contains both "TAX" and "SUMMARY"
    leaves the tax accumulator unchanged, and so does a text line that
    contains "TAX SUMMARY". *)
Theorem C9_tax_summary_is_not_a_tax (st : scan) :
  (forall r,
     Py.contains "TAX" (row_str r) = true ->
     Py.contains "SUMMARY" (row_str r) = true ->
     tax (process_row st r) = tax st) /\
  (forall line,
     Py.contains "TAX SUMMARY" line = true ->
     tax (text_totals_line st line) = tax st).
Proof.
  split.
  - intros r _ Hsum.
    assert (Hroute : tax (route_row_totals (row_str r) st) = tax st).
    { revert Hsum. generalize (row_str r) as s. intros s Hsum.
      unfold route_row_totals, store. rewrite Hsum, andb_false_r.
      destruct (Py.contains "SUB TOTAL" s), (Py.contains "TOTAL (CAD)" s),
        (last_amount s); reflexivity. }
    destruct (process_row_cases st r) as [-> | [-> | [-> | (c & _ & _ & ->)]]].
    + reflexivity.
    + exact Hroute.
    + destruct (store_shipping_frame (row_str r) (route_row_totals (row_str r) st))
        as (_ & _ & -> & _). exact Hroute.
    + destruct (parse_line_item_totals c r (route_row_totals (row_str r) st))
        as (_ & -> & _). exact Hroute.
  - intros line Hsum. unfold text_totals_line, store.
    rewrite Hsum, andb_false_r.
    destruct (Py.contains "SUB TOTAL" line), (Py.contains "TOTAL (CAD)" line),
      (last_amount line); reflexivity.
Qed.

End Extraction.

(** ** The code reconciler *)

Section Reconciliation.

Context {PF : PyFloat}.

(** [find] returns the first element that passes the test. *)
Lemma find_first {A : Type} (f : A -> bool) (l : list A) (x : A) :
  In x l -> f x = true ->
  exists l1 y l2,
    l = l1 ++ y :: l2 /\ f y = true /\ (forall z, In z l1 -> f z = false) /\
    find f l = Some y.
Proof.
  induction l as [|a l IH]; simpl; intros Hin Hx; [contradiction|].
  destruct (f a) eqn:Ha.
  - exists [], a, l. repeat split; auto. intros z [].
  - destruct Hin as [-> | Hin]; [congruence|].
    destruct (IH Hin Hx) as (l1 & y & l2 & -> & Hy & Hl1 & Hf).
    exists (a :: l1), y, l2. repeat split; auto.
    intros z [<- | Hz]; auto.
Qed.

Lemma find_nothing {A : Type} (f : A -> bool) (l : list A) :
  (forall x, In x l -> f x = false) -> find f l = None.
Proof.
  induction l as [|a l IH]; simpl; intros H; [reflexivity|].
  rewrite (H a) by now left. apply IH. intros x Hx. apply H. now right.
Qed.

Lemma exact_match_none (db : database) (item_code : string) :
  (forall e, In e db -> db_Item_Code e <> item_code) ->
  exact_match db item_code = None.
Proof.
  intros H. apply find_nothing. intros e He. apply String.eqb_neq. now apply H.
Qed.

Lemma stripped_match_none (db : database) (item_code : string) :
  (forall e, In e db -> Py.lstrip0 (db_Item_Code e) <> Py.lstrip0 item_code) ->
  stripped_match db item_code = None.
Proof.
  intros H. apply find_nothing. intros e He. apply String.eqb_neq. now apply H.
Qed.

(** C4.  When no reference code equals the item code but some reference code
    equals it after leading zeros are stripped from both, the item receives
    the GL code and GL description of the first reference entry whose
    zero-stripped code equals the zero-stripped item code. *)
Theorem C4_zero_stripped_match (db : database) (it : item) (e : db_row) :
  (forall x, In x db -> db_Item_Code x <> Item_Code it) ->
  In e db ->
  Py.lstrip0 (db_Item_Code e) = Py.lstrip0 (Item_Code it) ->
  exists before first after,
    db = before ++ first :: after /\
    Py.lstrip0 (db_Item_Code first) = Py.lstrip0 (Item_Code it) /\
    (forall x, In x before ->
       Py.lstrip0 (db_Item_Code x) <> Py.lstrip0 (Item_Code it)) /\
    GL_Code (reconcile_item db it) = Some (db_GL_Code first) /\
    GL_Description (reconcile_item db it) = Some (db_GL_Description first).
Proof.
  intros Hexact Hin Hstrip.
  destruct (find_first
              (fun x => String.eqb (Py.lstrip0 (db_Item_Code x))
                                   (Py.lstrip0 (Item_Code it))) db e Hin)
    as (l1 & y & l2 & Hdb & Hy & Hl1 & Hfind).
  { now apply String.eqb_eq. }
  exists l1, y, l2. split; [exact Hdb|].
  split; [now apply String.eqb_eq|].
  split; [intros x Hx; apply String.eqb_neq; now apply Hl1|].
  unfold reconcile_item. rewrite (exact_match_none db _ Hexact).
  unfold stripped_match. rewrite Hfind. split; reflexivity.
Qed.

(** C10.  The matching loop keeps the length and the order of the item list
    and, item by item, the Item Code, the Quantity and the Line Total; after
    it every item carries both a GL Code and a GL Description. *)
Theorem C10_reconciliation_only_adds_gl_fields
        (text : string) (tables : list table) (db : database) :
  Forall2 (fun before after =>
             Item_Code after = Item_Code before /\
             Quantity after = Quantity before /\
             Line_Total after = Line_Total before /\
             exists code desc,
               GL_Code after = Some code /\ GL_Description after = Some desc)
          (items (extraction text tables))
          (items (process_starbucks_invoice text tables db)).
Proof.
  unfold process_starbucks_invoice. simpl.
  induction (items (extraction text tables)) as [|it l IH]; simpl; constructor.
  - unfold reconcile_item.
    destruct (exact_match db (Item_Code it)) as [e|];
      [|destruct (stripped_match db (Item_Code it)) as [e|]];
      simpl; repeat split; eauto.
  - exact IH.
Qed.

End Reconciliation.

(** ** The summary aggregator and [main] *)

Section Aggregation.

Context {PF : PyFloat}.

Lemma generate_summary_fold (l : list item) :
  generate_summary l = fold_left summary_step l [].
Proof. now destruct l. Qed.

Lemma lookup_add_same (k : string) (a : float) (s : summary) :
  lookup k (add_amount k a s) = Some (add_opt (lookup k s) a).
Proof.
  induction s as [|[k' v] s IH]; simpl.
  - now rewrite String.eqb_refl.
  - destruct (String.eqb k' k) eqn:Hk; simpl; rewrite Hk; [reflexivity | exact IH].
Qed.

Lemma lookup_add_other (k k' : string) (a : float) (s : summary) :
  k <> k' -> lookup k' (add_amount k a s) = lookup k' s.
Proof.
  intros Hne. induction s as [|[k0 v] s IH]; simpl.
  - apply String.eqb_neq in Hne. now rewrite Hne.
  - destruct (String.eqb k0 k) eqn:Hk; simpl.
    + destruct (String.eqb k0 k') eqn:Hk'; [|reflexivity].
      apply String.eqb_eq in Hk, Hk'. congruence.
    + now rewrite IH.
Qed.

(** A bucket of the summary is the running sum of its line totals. *)
Lemma lookup_fold (desc : string) (l : list item) (s : summary) :
  lookup desc (fold_left summary_step l s) =
  running_sum (lookup desc s) (bucket desc l).
Proof.
  revert s. induction l as [|it l IH]; simpl; intros s; [reflexivity|].
  rewrite IH. unfold summary_step, bucket. simpl.
  destruct (String.eqb (Item_Code it) shipping_code); simpl; [reflexivity|].
  destruct (String.eqb (description_of it) desc) eqn:Hd; simpl.
  - apply String.eqb_eq in Hd. subst desc. now rewrite lookup_add_same.
  - apply String.eqb_neq in Hd. now rewrite lookup_add_other.
Qed.

Lemma bucket_app (desc : string) (l1 l2 : list item) :
  bucket desc (l1 ++ l2) = bucket desc l1 ++ bucket desc l2.
Proof. unfold bucket. now rewrite filter_app, map_app. Qed.

Lemma running_sum_app (acc : option float) (a b : list float) :
  running_sum acc (a ++ b) = running_sum (running_sum acc a) b.
Proof. apply fold_left_app. Qed.

Lemma running_sum_some (v : float) (l : list float) :
  running_sum (Some v) l <> None.
Proof.
  revert v. induction l as [|a l IH]; simpl; intros v; [discriminate | apply IH].
Qed.

(** C5 (amended).  An item whose code matches no reference entry, exactly or
    after zero-stripping, receives both sentinels together, GL code
    "ASK BOSS" and GL description "ASK BOSS FOR PROPER GL"; unless its code is
    the shipping code "000173080", its full line total is then added to the
    bucket of the sentinel description in the summary. *)
Theorem C5_unmatched_items_get_the_sentinels (db : database) (it : item) :
  (forall e, In e db -> db_Item_Code e <> Item_Code it) ->
  (forall e, In e db ->
     Py.lstrip0 (db_Item_Code e) <> Py.lstrip0 (Item_Code it)) ->
  GL_Code (reconcile_item db it) = Some "ASK BOSS"%string /\
  GL_Description (reconcile_item db it) = Some "ASK BOSS FOR PROPER GL"%string /\
  (Item_Code it <> shipping_code ->
   forall before after,
     let sentinel := "ASK BOSS FOR PROPER GL"%string in
     let bucket_of l := lookup sentinel (generate_summary (reconcile db l)) in
     bucket_of (before ++ it :: after) =
       running_sum (Some (add_opt (bucket_of before) (Line_Total it)))
                   (bucket sentinel (reconcile db after)) /\
     bucket_of (before ++ it :: after) <> None).
Proof.
  intros Hexact Hstrip.
  assert (Hr : reconcile_item db it =
               set_gl "ASK BOSS" "ASK BOSS FOR PROPER GL" it).
  { unfold reconcile_item.
    now rewrite (exact_match_none db _ Hexact), (stripped_match_none db _ Hstrip). }
  rewrite Hr. split; [reflexivity|]. split; [reflexivity|].
  intros Hship before after sentinel bucket_of.
  assert (Heq : bucket_of (before ++ it :: after) =
                running_sum (Some (add_opt (bucket_of before) (Line_Total it)))
                            (bucket sentinel (reconcile db after))).
  { unfold bucket_of. rewrite !generate_summary_fold, !lookup_fold.
    unfold reconcile. rewrite map_app, bucket_app, running_sum_app. simpl map.
    fold (reconcile db after). fold (reconcile db before).
    replace (bucket sentinel (reconcile_item db it :: reconcile db after))
      with (Line_Total it :: bucket sentinel (reconcile db after)).
    - reflexivity.
    - rewrite Hr. unfold bucket. simpl.
      apply String.eqb_neq in Hship. now rewrite Hship. }
  split; [exact Heq|]. rewrite Heq. apply running_sum_some.
Qed.

Lemma process_prints_cases (text : string) (tables : list table) (s : string) :
  In s (process_prints text tables) ->
  s = "Processing Starbucks invoice"%string \/
  s = "Warning: This doesn't appear to be a Starbucks invoice"%string \/
  s = "No valid tables found, attempting direct text extraction..."%string.
Proof.
  unfold process_prints. intros H.
  apply in_app_or in H as [[<- | []] | H]; [now left|].
  apply in_app_or in H as [H | H].
  - destruct (Py.contains "STARBUCKS COFFEE CANADA" text);
      [destruct H | destruct H as [<- | []]; right; now left].
  - destruct (negb (tables_processed (table_pass tables)) ||
              match items (table_pass tables) with [] => true | _ :: _ => false end);
      [destruct H as [<- | []]; right; now right | destruct H].
Qed.

(** C8.  When the table pass, the known-items lookup and the text-pattern
    pass all yield no item, [main] reports that no items were extracted and
    stops: the console shows the messages of [process_starbucks_invoice] and
    the error message, and no summary. *)
Theorem C8_no_items_no_summary (db : database) (text : string) (tables : list table) :
  items (table_pass tables) = [] ->
  known_items_in text = [] ->
  pattern_items_in text = [] ->
  main db text tables =
    map Message (process_prints text tables) ++
    [Message "Error: No items were extracted from the invoice"] /\
  (forall o, In o (main db text tables) ->
     exists s, o = Message s /\ s <> "=== Summary by GL Description ==="%string).
Proof.
  intros Ht Hk Hp.
  assert (Hmain : main db text tables =
                  map Message (process_prints text tables) ++
                  [Message "Error: No items were extracted from the invoice"]).
  { unfold main, process_starbucks_invoice. simpl.
    rewrite extraction_items, Ht. unfold extract_items_from_starbucks_invoice.
    now rewrite Hk, Hp. }
  split; [exact Hmain|]. rewrite Hmain. intros o Ho.
  apply in_app_or in Ho as [Ho | [<- | []]].
  - apply in_map_iff in Ho as (s & <- & Hs). exists s. split; [reflexivity|].
    apply process_prints_cases in Hs as [-> | [-> | ->]]; discriminate.
  - eexists. split; [reflexivity | discriminate].
Qed.

End Aggregation.

(** * The code on concrete invoices *)

(** The end-to-end scenario: a header row, a sub-total row and one item row
    give one item and the sub-total 62.56. *)
Example end_to_end_scenario :
  let st := process_starbucks_invoice "STARBUCKS COFFEE CANADA"
              [[header_row; subtotal_row; item_row]] reference in
  items st =
    [set_gl "5010" "COFFEE AND TEA"
            (new_item "011120225" (Flt (float_of_Q 16)) (float_of_Q (6256 # 100)))] /\
  subtotal st = float_of_Q (6256 # 100).
Proof. vm_compute. split; reflexivity. Qed.

(** Three items of 10.00, 20.00 and 30.00 under one description make one
    bucket of 60.00. *)
Example aggregation_scenario :
  generate_summary
    [set_gl "5010" "COFFEE AND TEA" (new_item "011120225" (Int 1) (float_of_Q 10));
     set_gl "5010" "COFFEE AND TEA" (new_item "011107006" (Int 1) (float_of_Q 20));
     set_gl "5010" "COFFEE AND TEA" (new_item "011039690" (Int 1) (float_of_Q 30))] =
  [("COFFEE AND TEA"%string, float_of_Q 60)].
Proof. vm_compute. reflexivity. Qed.

(** The text-pattern pass on a document outside the known-items list. *)
Example pattern_pass_scenario :
  extract_items_from_starbucks_invoice
    (lines ["123456789 SYRUP 2 10.00"; "PAGE 1"; "123456780 CUPS 1.2.3 4.00"]%string) =
  [new_item "123456789" (Flt (float_of_Q 2)) (float_of_Q 10)].
Proof. vm_compute. reflexivity. Qed.

(** C1, as stated, fails: the text names a known item, yet the table pass
    accepted a row and its item is the result. *)
Lemma C1_counterexample :
  known_items_in "INVOICE 011120225" <> [] /\
  map Item_Code
      (items (process_starbucks_invoice "INVOICE 011120225" [[other_item_row]] reference)) =
    ["123456789"%string] /\
  items (process_starbucks_invoice "INVOICE 011120225" [[other_item_row]] reference) <>
    reconcile reference (known_items_in "INVOICE 011120225").
Proof.
  split; [|split].
  - vm_compute. discriminate.
  - vm_compute. reflexivity.
  - vm_compute. discriminate.
Qed.

Lemma C1_witness :
  known_items_in "INVOICE 011120225" <> [] /\
  items (process_starbucks_invoice "INVOICE 011120225" [[header_row]] reference) =
    reconcile reference (known_items_in "INVOICE 011120225").
Proof.
  assert (H : known_items_in "INVOICE 011120225" <> []) by (vm_compute; discriminate).
  split; [exact H|].
  destruct (C1_known_items_follow_the_table_pass
              "INVOICE 011120225" [[header_row]] reference H) as (_ & Hempty & _).
  apply Hempty. vm_compute. reflexivity.
Defined.

(** C2, as stated, fails: the table pass set the subtotal to 62.56 and left
    the tax at zero, and the text scan then overwrites the subtotal. *)
Lemma C2_counterexample :
  feq0 (subtotal (table_pass [[subtotal_row]])) = false /\
  subtotal (table_pass [[subtotal_row]]) = float_of_Q (6256 # 100) /\
  subtotal (extraction "SUB TOTAL 10.00" [[subtotal_row]]) = float_of_Q 10 /\
  subtotal (extraction "SUB TOTAL 10.00" [[subtotal_row]]) <>
    subtotal (table_pass [[subtotal_row]]).
Proof.
  repeat split; try (vm_compute; reflexivity). vm_compute. discriminate.
Qed.

Lemma C2_witness :
  feq0 (shipping_amount (table_pass [full_table])) = false /\
  feq0 (subtotal (table_pass [full_table])) = false /\
  feq0 (tax (table_pass [full_table])) = false /\
  feq0 (total (table_pass [full_table])) = false /\
  shipping_amount (extraction other_totals [full_table]) = float_of_Q (33228 # 100) /\
  subtotal (extraction other_totals [full_table]) = float_of_Q (6256 # 100) /\
  tax (extraction other_totals [full_table]) = float_of_Q (313 # 100) /\
  total (extraction other_totals [full_table]) = float_of_Q 398.
Proof.
  assert (H0 : feq0 (shipping_amount (table_pass [full_table])) = false) by (vm_compute; reflexivity).
  assert (H1 : feq0 (subtotal (table_pass [full_table])) = false) by (vm_compute; reflexivity).
  assert (H2 : feq0 (tax (table_pass [full_table])) = false) by (vm_compute; reflexivity).
  assert (H3 : feq0 (total (table_pass [full_table])) = false) by (vm_compute; reflexivity).
  destruct (C2_text_scan_is_a_fallback other_totals [full_table]) as (Hship & Htot).
  destruct (Htot H1 H2 H3) as (Ha & Hb & Hc).
  rewrite (Hship H0), Ha, Hb, Hc.
  repeat (split; [vm_compute; reflexivity|]). vm_compute. reflexivity.
Defined.

(** C3, as stated, fails: a row that carries the label "SUB TOTAL" and the
    fields of a line item has its number routed to the subtotal and is
    accepted as a line item all the same. *)
Lemma C3_counterexample :
  Py.contains "SUB TOTAL" (row_str labelled_item_row) = true /\
  subtotal (process_row scan0 labelled_item_row) = float_of_Q (6256 # 100) /\
  items (process_row scan0 labelled_item_row) =
    [new_item "011120225" (Flt (float_of_Q 16)) (float_of_Q (6256 # 100))] /\
  items (process_row scan0 labelled_item_row) <> items scan0.
Proof.
  repeat split; try (vm_compute; reflexivity). vm_compute. discriminate.
Qed.

Lemma C3_witness :
  (10 <= List.length subtotal_row)%nat /\
  is_header subtotal_row = false /\
  subtotal (process_row scan0 subtotal_row) = float_of_Q (6256 # 100) /\
  tax (process_row scan0 subtotal_row) = tax scan0 /\
  items (process_row scan0 subtotal_row) = [] /\
  (10 <= List.length shipping_row)%nat /\
  is_header shipping_row = false /\
  shipping_amount (process_row scan0 shipping_row) = float_of_Q (33228 # 100) /\
  items (process_row scan0 shipping_row) = [].
Proof.
  assert (L1 : (10 <= List.length subtotal_row)%nat) by (simpl; lia).
  assert (L2 : (10 <= List.length shipping_row)%nat) by (simpl; lia).
  assert (N1 : is_header subtotal_row = false) by (vm_compute; reflexivity).
  assert (N2 : is_header shipping_row = false) by (vm_compute; reflexivity).
  pose proof (C3_aggregate_rows scan0 subtotal_row L1 N1) as H1.
  pose proof (C3_aggregate_rows scan0 shipping_row L2 N2) as H2.
  cbv zeta in H1, H2.
  destruct H1 as (R1 & _ & I1 & _). destruct H2 as (R2 & _ & I2 & _).
  assert (E1 : Py.last_of (Py.findall_decimal (row_str subtotal_row)) = Some "62.56"%string)
    by (vm_compute; reflexivity).
  assert (E2 : Py.last_of (Py.findall_decimal (row_str shipping_row)) = Some "332.28"%string)
    by (vm_compute; reflexivity).
  destruct (R1 _ E1) as (v1 & Hv1 & Hsub & Htax & _).
  destruct (R2 _ E2) as (v2 & Hv2 & _ & _ & _ & Hship).
  vm_compute in Hv1, Hv2. injection Hv1 as <-. injection Hv2 as <-.
  split; [exact L1|]. split; [exact N1|].
  split; [rewrite Hsub; vm_compute; reflexivity|].
  split; [rewrite Htax; vm_compute; reflexivity|].
  split; [rewrite I1; vm_compute; reflexivity|].
  split; [exact L2|]. split; [exact N2|].
  split; [rewrite Hship; vm_compute; reflexivity|].
  rewrite I2. vm_compute. reflexivity.
Defined.

Lemma C4_witness :
  (forall x, In x reference -> db_Item_Code x <> Item_Code coffee_item) /\
  In {| db_Item_Code := "0011120225"; db_GL_Code := "5020";
        db_GL_Description := "PAPER GOODS" |} reference /\
  Py.lstrip0 "0011120225" = Py.lstrip0 (Item_Code coffee_item) /\
  GL_Code (reconcile_item reference coffee_item) = Some "5010"%string /\
  GL_Description (reconcile_item reference coffee_item) = Some "COFFEE AND TEA"%string.
Proof.
  assert (Hexact : forall x, In x reference -> db_Item_Code x <> Item_Code coffee_item).
  { intros x [<- | [<- | []]]; vm_compute; discriminate. }
  assert (Hin : In {| db_Item_Code := "0011120225"; db_GL_Code := "5020";
                      db_GL_Description := "PAPER GOODS" |} reference).
  { right. left. reflexivity. }
  assert (Hstrip : Py.lstrip0 "0011120225" = Py.lstrip0 (Item_Code coffee_item))
    by (vm_compute; reflexivity).
  split; [exact Hexact|]. split; [exact Hin|]. split; [exact Hstrip|].
  destruct (C4_zero_stripped_match reference coffee_item _ Hexact Hin Hstrip)
    as (before & first & after & Hdb & _ & Hbefore & Hcode & Hdesc).
  destruct before as [|b before].
  - injection Hdb as <- _. split; assumption.
  - injection Hdb as <- _. exfalso. apply (Hbefore _ (or_introl eq_refl)).
    vm_compute. reflexivity.
Defined.

(** C5, as stated, fails: the shipping item of the known-items list matches
    no reference entry and receives the sentinels, but it is left out of the
    summary, which has no bucket for the sentinel description. *)
Lemma C5_counterexample :
  (forall e, In e reference -> db_Item_Code e <> Item_Code shipping_item) /\
  (forall e, In e reference ->
     Py.lstrip0 (db_Item_Code e) <> Py.lstrip0 (Item_Code shipping_item)) /\
  GL_Description (reconcile_item reference shipping_item) =
    Some "ASK BOSS FOR PROPER GL"%string /\
  generate_summary (reconcile reference [shipping_item]) = [] /\
  lookup "ASK BOSS FOR PROPER GL"
         (generate_summary (reconcile reference [shipping_item])) = None.
Proof.
  split; [|split; [|split; [|split]]].
  - intros e [<- | [<- | []]]; vm_compute; discriminate.
  - intros e [<- | [<- | []]]; vm_compute; discriminate.
  - vm_compute. reflexivity.
  - vm_compute. reflexivity.
  - vm_compute. reflexivity.
Qed.

Lemma C5_witness :
  (forall e, In e reference -> db_Item_Code e <> Item_Code unknown_item) /\
  (forall e, In e reference ->
     Py.lstrip0 (db_Item_Code e) <> Py.lstrip0 (Item_Code unknown_item)) /\
  Item_Code unknown_item <> shipping_code /\
  GL_Code (reconcile_item reference unknown_item) = Some "ASK BOSS"%string /\
  GL_Description (reconcile_item reference unknown_item) =
    Some "ASK BOSS FOR PROPER GL"%string /\
  lookup "ASK BOSS FOR PROPER GL"
         (generate_summary (reconcile reference [coffee_item; unknown_item])) =
    Some (float_of_Q 10).
Proof.
  assert (H1 : forall e, In e reference -> db_Item_Code e <> Item_Code unknown_item).
  { intros e [<- | [<- | []]]; vm_compute; discriminate. }
  assert (H2 : forall e, In e reference ->
                 Py.lstrip0 (db_Item_Code e) <> Py.lstrip0 (Item_Code unknown_item)).
  { intros e [<- | [<- | []]]; vm_compute; discriminate. }
  assert (H3 : Item_Code unknown_item <> shipping_code) by (vm_compute; discriminate).
  destruct (C5_unmatched_items_get_the_sentinels reference unknown_item H1 H2)
    as (Hcode & Hdesc & Hsum).
  destruct (Hsum H3 [coffee_item] []) as (Hbucket & _).
  split; [exact H1|]. split; [exact H2|]. split; [exact H3|].
  split; [exact Hcode|]. split; [exact Hdesc|].
  change ([coffee_item; unknown_item]) with ([coffee_item] ++ unknown_item :: []).
  rewrite Hbucket. vm_compute. reflexivity.
Defined.

Lemma C7_witness :
  positive_item (new_item "011120225" (Flt (float_of_Q 16)) (float_of_Q (6256 # 100))) /\
  is_numeric (cell_at no_quantity_row 7) = false /\
  items (process_row scan0 no_quantity_row) = [].
Proof.
  destruct (C7_table_items_are_positive [full_table]) as (Hpos & Hdrop).
  split; [|split].
  - apply Hpos. vm_compute. left. reflexivity.
  - vm_compute. reflexivity.
  - apply (Hdrop scan0 no_quantity_row). left. vm_compute. reflexivity.
Defined.

Lemma C8_witness :
  items (table_pass [[header_row; no_quantity_row]]) = [] /\
  known_items_in "PAGE 1 OF 1" = [] /\
  pattern_items_in "PAGE 1 OF 1" = [] /\
  main reference "PAGE 1 OF 1" [[header_row; no_quantity_row]] =
    [Message "Processing Starbucks invoice";
     Message "Warning: This doesn't appear to be a Starbucks invoice";
     Message "No valid tables found, attempting direct text extraction...";
     Message "Error: No items were extracted from the invoice"].
Proof.
  assert (H1 : items (table_pass [[header_row; no_quantity_row]]) = [])
    by (vm_compute; reflexivity).
  assert (H2 : known_items_in "PAGE 1 OF 1" = []) by (vm_compute; reflexivity).
  assert (H3 : pattern_items_in "PAGE 1 OF 1" = []) by (vm_compute; reflexivity).
  split; [exact H1|]. split; [exact H2|]. split; [exact H3|].
  destruct (C8_no_items_no_summary reference "PAGE 1 OF 1"
              [[header_row; no_quantity_row]] H1 H2 H3) as (-> & _).
  vm_compute. reflexivity.
Defined.

(** C9, as stated, fails: a text line with "TAX" and "SUMMARY" apart sets
    the tax. *)
Lemma C9_counterexample :
  Py.contains "TAX" "SUMMARY OF TAX 5.00" = true /\
  Py.contains "SUMMARY" "SUMMARY OF TAX 5.00" = true /\
  tax (table_pass []) = float_of_Q 0 /\
  tax (extraction "SUMMARY OF TAX 5.00" []) = float_of_Q 5 /\
  tax (extraction "SUMMARY OF TAX 5.00" []) <> tax (table_pass []).
Proof.
  repeat split; try (vm_compute; reflexivity). vm_compute. discriminate.
Qed.

Lemma C9_witness :
  Py.contains "TAX" (row_str tax_summary_row) = true /\
  Py.contains "SUMMARY" (row_str tax_summary_row) = true /\
  tax (process_row (set_tax (float_of_Q 5) scan0) tax_summary_row) = float_of_Q 5 /\
  Py.contains "TAX SUMMARY" "TAX SUMMARY GST 3.13" = true /\
  tax (text_totals_line (set_tax (float_of_Q 5) scan0) "TAX SUMMARY GST 3.13") =
    float_of_Q 5.
Proof.
  assert (H1 : Py.contains "TAX" (row_str tax_summary_row) = true)
    by (vm_compute; reflexivity).
  assert (H2 : Py.contains "SUMMARY" (row_str tax_summary_row) = true)
    by (vm_compute; reflexivity).
  assert (H3 : Py.contains "TAX SUMMARY" "TAX SUMMARY GST 3.13" = true)
    by (vm_compute; reflexivity).
  destruct (C9_tax_summary_is_not_a_tax (set_tax (float_of_Q 5) scan0)) as (Hrow & Hline).
  split; [exact H1|]. split; [exact H2|].
  split; [rewrite (Hrow _ H1 H2); vm_compute; reflexivity|].
  split; [exact H3|].
  rewrite (Hline _ H3). vm_compute. reflexivity.
Defined.

(** * Further properties *)

Local Open Scope nat_scope.

(** ** Substrings and lines *)

Section Text.

Lemma prefix_iff (n h : string) :
  prefix n h = true <-> exists s, h = (n ++ s)%string.
Proof.
  revert h. induction n as [|a n IH]; intros h.
  - split; [intros _; now exists h | intros _; now destruct h].
  - destruct h as [|b h]; simpl.
    + split; [discriminate | intros [s Hs]; discriminate].
    + destruct (ascii_dec a b) as [->|Hab].
      * rewrite IH. split; intros [s Hs]; exists s; congruence.
      * split; [discriminate | intros [s Hs]; congruence].
Qed.

Lemma contains_iff (n h : string) :
  Py.contains n h = true <-> exists p s, h = (p ++ n ++ s)%string.
Proof.
  induction h as [|b h IH].
  - cbn [Py.contains]. destruct (prefix n EmptyString) eqn:Hp.
    + split; [intros _|reflexivity]. apply prefix_iff in Hp as [s Hs].
      now exists EmptyString, s.
    + split; [discriminate|]. intros (p & s & Hs).
      destruct p; [|discriminate]. simpl in Hs.
      assert (prefix n EmptyString = true) by (apply prefix_iff; now exists s).
      congruence.
  - cbn [Py.contains]. destruct (prefix n (String b h)) eqn:Hp.
    + split; [intros _|reflexivity]. apply prefix_iff in Hp as [s Hs].
      now exists EmptyString, s.
    + rewrite IH. split.
      * intros (p & s & ->). now exists (String b p), s.
      * intros (p & s & Hs). destruct p as [|c p].
        -- simpl in Hs.
           assert (prefix n (String b h) = true) by (apply prefix_iff; now exists s).
           congruence.
        -- injection Hs as _ ->. now exists p, s.
Qed.

(** A substring of a substring. *)
Lemma contains_inside (n h p s : string) :
  Py.contains n h = true -> Py.contains n (p ++ h ++ s)%string = true.
Proof.
  rewrite !contains_iff. intros (p' & s' & ->).
  exists (p ++ p')%string, (s' ++ s)%string. now rewrite !append_assoc.
Qed.

Lemma contains_self (n : string) : Py.contains n n = true.
Proof.
  apply contains_iff. exists EmptyString, EmptyString. simpl.
  induction n as [|c n IH]; simpl; congruence.
Qed.

Lemma append_nil_r (s : string) : (s ++ EmptyString)%string = s.
Proof. induction s as [|c s IH]; simpl; congruence. Qed.

Lemma split_lines_cons (s : string) :
  exists l ls, Py.split_lines s = l :: ls.
Proof. unfold Py.split_lines. destruct (Py.split_first s). eauto. Qed.


Lemma split_lines_single (s : string) :
  no_newline s -> Py.split_lines s = [s].
Proof.
  unfold no_newline, Py.split_lines. induction s as [|c s IH]; simpl; intros H.
  - reflexivity.
  - apply andb_true_iff in H as [Hc H]. specialize (IH H).
    destruct (Py.split_first s) as [l ls]. injection IH as -> ->.
    apply negb_true_iff in Hc. now rewrite Hc.
Qed.

(** Joining the lines with newlines gives the text back. *)
Lemma lines_split_lines (text : string) :
  lines (Py.split_lines text) = text.
Proof.
  unfold lines, Py.split_lines. induction text as [|c text IH].
  - reflexivity.
  - cbn [Py.split_first]. destruct (Py.split_first text) as [l ls].
    destruct (Ascii.eqb c Py.newline) eqn:Hc.
    + apply Ascii.eqb_eq in Hc. subst c.
      change (String.concat (String Py.newline EmptyString) (EmptyString :: l :: ls))
        with (String Py.newline (String.concat (String Py.newline EmptyString) (l :: ls))).
      now rewrite IH.
    + rewrite <- IH. destruct ls; reflexivity.
Qed.

Lemma concat_inside (sep line : string) (ls : list string) :
  In line ls -> exists p s, String.concat sep ls = (p ++ line ++ s)%string.
Proof.
  induction ls as [|x ls IH]; intros Hin; [contradiction|].
  destruct Hin as [-> | Hin].
  - destruct ls as [|y ls].
    + exists EmptyString, EmptyString. simpl. now rewrite append_nil_r.
    + exists EmptyString, (sep ++ String.concat sep (y :: ls))%string. reflexivity.
  - destruct (IH Hin) as (p & s & Hps). destruct ls as [|y ls]; [contradiction|].
    exists (x ++ sep ++ p)%string, s.
    change (String.concat sep (x :: y :: ls)) with (x ++ sep ++ String.concat sep (y :: ls))%string.
    rewrite Hps. now rewrite !append_assoc.
Qed.

(** Every line is a part of the text. *)
Lemma line_inside (text line : string) :
  In line (Py.split_lines text) ->
  exists p s, text = (p ++ line ++ s)%string.
Proof.
  intros H.
  destruct (concat_inside (String Py.newline EmptyString) line _ H) as (p & s & Hps).
  exists p, s. rewrite <- Hps. symmetry. apply lines_split_lines.
Qed.

Lemma contains_line (n text line : string) :
  In line (Py.split_lines text) ->
  Py.contains n line = true -> Py.contains n text = true.
Proof.
  intros Hl Hn. destruct (line_inside text line Hl) as (p & s & ->).
  now apply contains_inside.
Qed.

End Text.

(** ** [load_database] *)

Section Loader.

Lemma length_append (a b : string) :
  String.length (a ++ b)%string = String.length a + String.length b.
Proof. induction a as [|c a IH]; simpl; congruence. Qed.

Lemma length_zeros (n : nat) : String.length (zeros n) = n.
Proof. induction n as [|n IH]; simpl; congruence. Qed.

Lemma zeros_add (a b : nat) : zeros (a + b) = (zeros a ++ zeros b)%string.
Proof. induction a as [|a IH]; simpl; congruence. Qed.

Lemma lstrip0_zeros (n : nat) (s : string) :
  Py.lstrip0 (zeros n ++ s)%string = Py.lstrip0 s.
Proof. induction n as [|n IH]; simpl; [reflexivity | exact IH]. Qed.

(** A text is its leading zeros followed by its zero-stripped part. *)
Lemma lstrip0_split (s : string) :
  s = (zeros (String.length s - String.length (Py.lstrip0 s)) ++ Py.lstrip0 s)%string.
Proof.
  induction s as [|c s IH]; [reflexivity|].
  cbn [Py.lstrip0]. destruct (Ascii.eqb c "0") eqn:Hc.
  - apply Ascii.eqb_eq in Hc. subst c.
    assert (Hle : String.length (Py.lstrip0 s) <= String.length s).
    { clear. induction s as [|c s IH]; simpl; [lia|].
      destruct (Ascii.eqb c "0"); simpl; lia. }
    cbn [String.length].
    replace (S (String.length s) - String.length (Py.lstrip0 s))
      with (S (String.length s - String.length (Py.lstrip0 s))) by lia.
    simpl. now rewrite <- IH.
  - now rewrite Nat.sub_diag.
Qed.

(** Texts of one length with one zero-stripped part are equal. *)
Lemma same_length_same_stripped (a b : string) :
  String.length a = String.length b ->
  Py.lstrip0 a = Py.lstrip0 b -> a = b.
Proof.
  intros Hlen Hstrip. rewrite (lstrip0_split a), (lstrip0_split b).
  now rewrite Hlen, Hstrip.
Qed.

Lemma zfill_digits (x : string) :
  Py.isdigit x = true ->
  zfill 9 x = (zeros (9 - String.length x) ++ x)%string.
Proof.
  unfold zfill. destruct x as [|c x]; [discriminate|].
  cbn [Py.isdigit Py.all_digits]. intros H. apply andb_true_iff in H as [Hc _].
  destruct (Ascii.eqb c "+") eqn:Hp.
  - apply Ascii.eqb_eq in Hp. subst c. discriminate.
  - destruct (Ascii.eqb c "-") eqn:Hm; [|reflexivity].
    apply Ascii.eqb_eq in Hm. subst c. discriminate.
Qed.

Lemma canon_code_cases (x : string) :
  (Py.isdigit x = true /\ String.length x < 9 /\
   canon_code x = (zeros (9 - String.length x) ++ x)%string) \/
  ((Py.isdigit x = false \/ 9 <= String.length x) /\ canon_code x = x).
Proof.
  unfold canon_code. destruct (Py.isdigit x) eqn:Hd; simpl.
  - destruct (Nat.ltb_spec (String.length x) 9).
    + left. repeat split; auto. now apply zfill_digits.
    + right. auto.
  - right. auto.
Qed.

Lemma canon_code_stripped (x : string) :
  Py.lstrip0 (canon_code x) = Py.lstrip0 x.
Proof.
  destruct (canon_code_cases x) as [(_ & _ & ->) | (_ & ->)];
    [apply lstrip0_zeros | reflexivity].
Qed.

Lemma canon_code_length (x : string) :
  Py.isdigit x = true -> String.length x <= 9 ->
  String.length (canon_code x) = 9.
Proof.
  intros Hd Hlen.
  destruct (canon_code_cases x) as [(_ & Hlt & ->) | ([Hn | Hge] & ->)].
  - rewrite length_append, length_zeros. lia.
  - congruence.
  - lia.
Qed.

(** X1.  [load_database] puts back the leading zeros that the sheet lost: a
    code of at most nine digits in the sheet becomes the nine-digit item code
    with the same zero-stripped value, so that the exact pass of the
    reconciliation finds an entry with that very code and gives the item its
    GL code and GL description. *)
Theorem X1_loading_restores_the_exact_match
        (sh : sheet) (db : database) (r : string -> string) (item_code : string) :
  load_database sh = Some db ->
  In r (sheet_rows sh) ->
  Py.isdigit (r "Item Code"%string) = true ->
  String.length (r "Item Code"%string) <= 9 ->
  String.length item_code = 9 ->
  Py.lstrip0 (r "Item Code"%string) = Py.lstrip0 item_code ->
  canon_code (r "Item Code"%string) = item_code /\
  exists e, In e db /\ db_Item_Code e = item_code /\
            exact_match db item_code = Some e /\
            forall (PF : PyFloat) (it : item),
              Item_Code it = item_code ->
              GL_Code (reconcile_item db it) = Some (db_GL_Code e) /\
              GL_Description (reconcile_item db it) = Some (db_GL_Description e).
Proof.
  intros Hload Hin Hd Hlen Hlen9 Hstrip.
  assert (Hcanon : canon_code (r "Item Code"%string) = item_code).
  { apply same_length_same_stripped.
    - rewrite canon_code_length; auto.
    - now rewrite canon_code_stripped. }
  split; [exact Hcanon|].
  unfold load_database in Hload.
  destruct (forallb _ required_columns); [|discriminate].
  injection Hload as <-.
  assert (Hrow : In (load_row r) (map load_row (sheet_rows sh))) by now apply in_map.
  destruct (find_first (fun e => String.eqb (db_Item_Code e) item_code)
                       (map load_row (sheet_rows sh)) (load_row r) Hrow)
    as (l1 & e & l2 & Hdb & He & _ & Hfind).
  { simpl. rewrite Hcanon. apply String.eqb_refl. }
  exists e. split; [|split; [|split]].
  - rewrite Hdb. apply in_or_app. right. now left.
  - now apply String.eqb_eq.
  - exact Hfind.
  - intros PF it Hit. unfold reconcile_item, exact_match. rewrite Hit, Hfind.
    split; reflexivity.
Qed.

(** X2.  The loader's padding is idempotent and does not change what the
    zero-stripped pass sees: the fallback finds the row of the first sheet row
    whose code, as the sheet has it, has the zero-stripped value of the item
    code. *)
Theorem X2_loading_keeps_the_zero_stripped_match
        (rows : list (string -> string)) (item_code x : string) :
  canon_code (canon_code x) = canon_code x /\
  Py.lstrip0 (canon_code x) = Py.lstrip0 x /\
  stripped_match (map load_row rows) item_code =
    option_map load_row
      (find (fun r => String.eqb (Py.lstrip0 (r "Item Code"%string))
                                 (Py.lstrip0 item_code)) rows).
Proof.
  split; [|split].
  - destruct (canon_code_cases x) as [(Hd & Hlt & Hx) | (Hc & Hx)].
    + destruct (canon_code_cases (canon_code x)) as [(_ & Hlt' & _) | (_ & H)];
        [|exact H].
      rewrite Hx, length_append, length_zeros in Hlt'. lia.
    + now rewrite Hx, Hx.
  - apply canon_code_stripped.
  - unfold stripped_match. induction rows as [|r rows IH]; simpl; [reflexivity|].
    rewrite canon_code_stripped.
    destruct (String.eqb (Py.lstrip0 (r "Item Code"%string)) (Py.lstrip0 item_code));
      [reflexivity | exact IH].
Qed.

(** X3.  [load_database] stops the run when one of the columns
    "Item Code", "GL Code" and "GL Description" is missing from the sheet.
    When it returns a database, the three columns are in the sheet and the
    database has one entry per row of the sheet, in order, with the GL code
    and the GL description of the row unchanged. *)
Theorem X3_loading_needs_the_three_columns (sh : sheet) :
  ((exists col, In col required_columns /\ ~ In col (sheet_columns sh)) ->
   load_database sh = None) /\
  (forall db, load_database sh = Some db ->
     (forall col, In col required_columns -> In col (sheet_columns sh)) /\
     Forall2 (fun r e => db_GL_Code e = r "GL Code"%string /\
                         db_GL_Description e = r "GL Description"%string /\
                         Py.lstrip0 (db_Item_Code e) = Py.lstrip0 (r "Item Code"%string))
             (sheet_rows sh) db).
Proof.
  unfold load_database.
  destruct (forallb (fun col => existsb (String.eqb col) (sheet_columns sh))
                    required_columns) eqn:Hall.
  - assert (Hcols : forall col, In col required_columns -> In col (sheet_columns sh)).
    { intros col Hcol. rewrite forallb_forall in Hall. specialize (Hall col Hcol).
      apply existsb_exists in Hall as (c & Hc & Heq).
      apply String.eqb_eq in Heq. now subst c. }
    split.
    + intros (col & Hcol & Hmiss). exfalso. apply Hmiss. now apply Hcols.
    + intros db H. injection H as <-. split; [exact Hcols|].
      induction (sheet_rows sh) as [|r rows IH]; simpl; constructor; auto.
      simpl. repeat split. apply canon_code_stripped.
  - split; [reflexivity | discriminate].
Qed.

End Loader.

(** ** [extract_text_from_pdf] *)

Section Pages.

Context {PF : PyFloat}.

Lemma joined_cons (t : string) (texts : list string) :
  joined (t :: texts) = (t ++ String Py.newline (joined texts))%string.
Proof.
  unfold joined. destruct texts as [|t' texts].
  - reflexivity.
  - change (String.concat EmptyString (map (fun t0 => (t0 ++ Newline)%string) (t :: t' :: texts)))
      with ((t ++ Newline) ++ EmptyString ++
            String.concat EmptyString (map (fun t0 => (t0 ++ Newline)%string) (t' :: texts)))%string.
    unfold Newline. now rewrite append_assoc.
Qed.

Lemma extract_pages_some (pages : list page) (text0 : string) (tables0 : list table) :
  (forall p, In p pages -> fst p <> None) ->
  exists texts,
    map fst pages = map Some texts /\
    extract_pages pages text0 tables0 =
      Some ((text0 ++ joined texts)%string, tables0 ++ List.concat (map snd pages)).
Proof.
  revert text0 tables0. induction pages as [|[[t|] ts] pages IH]; intros text0 tables0 Hall.
  - exists []. simpl. unfold joined. simpl. now rewrite append_nil_r, app_nil_r.
  - destruct (IH (text0 ++ t ++ String Py.newline EmptyString)%string (tables0 ++ ts))
      as (texts & Hm & He).
    { intros p Hp. apply Hall. now right. }
    exists (t :: texts). split; [simpl; now rewrite Hm|].
    cbn [extract_pages]. rewrite He, joined_cons. f_equal. f_equal.
    + now rewrite !append_assoc.
    + simpl. now rewrite app_assoc.
  - exfalso. apply (Hall (None, ts)); [now left | reflexivity].
Qed.

Lemma extract_pages_none (pages : list page) (text0 : string) (tables0 : list table) :
  (exists p, In p pages /\ fst p = None) ->
  extract_pages pages text0 tables0 = None.
Proof.
  revert text0 tables0. induction pages as [|[[t|] ts] pages IH];
    intros text0 tables0 (p & Hin & Hp).
  - contradiction.
  - simpl. apply IH. destruct Hin as [<- | Hin]; [discriminate | eauto].
  - reflexivity.
Qed.



Lemma prefix_before_newline (n s a b : string) :
  no_newline n ->
  (n ++ s)%string = (a ++ String Py.newline b)%string ->
  exists s', a = (n ++ s')%string.
Proof.
  unfold no_newline. revert a. induction n as [|c n IH]; simpl; intros a Hn H.
  - now exists a.
  - apply andb_true_iff in Hn as [Hc Hn]. destruct a as [|x a]; simpl in H.
    + injection H as -> _. now rewrite Ascii.eqb_refl in Hc.
    + injection H as -> H. destruct (IH a Hn H) as [s' ->]. now exists s'.
Qed.

(** A text without a newline lies on one side of a newline. *)
Lemma contains_across_newline (n a b : string) :
  no_newline n ->
  Py.contains n (a ++ String Py.newline b)%string = true ->
  Py.contains n a = true \/ Py.contains n b = true.
Proof.
  intros Hn H. apply contains_iff in H as (p & s & H).
  revert a H. induction p as [|c p IH]; intros a H.
  - left. simpl in H. symmetry in H.
    destruct (prefix_before_newline n s a b Hn H) as [s' ->].
    apply contains_iff. now exists EmptyString, s'.
  - destruct a as [|x a]; simpl in H.
    + injection H as _ ->. right. apply contains_iff. now exists p, s.
    + injection H as _ H. destruct (IH a H) as [Ha | Hb]; [left | now right].
      apply contains_iff in Ha as (p' & s' & ->).
      apply contains_iff. now exists (String x p'), s'.
Qed.

Lemma contains_joined (n : string) (texts : list string) :
  no_newline n -> n <> EmptyString ->
  (Py.contains n (joined texts) = true <->
   exists t, In t texts /\ Py.contains n t = true).
Proof.
  intros Hn Hne. induction texts as [|t texts IH].
  - split; [|intros (t & [] & _)].
    intros H. exfalso. destruct n; [now apply Hne | discriminate].
  - rewrite joined_cons. split.
    + intros H. apply contains_across_newline in H as [H | H]; auto.
      * exists t. split; [now left | exact H].
      * apply IH in H as (t' & Hin & Ht'). exists t'. split; [now right | exact Ht'].
    + intros (t' & [<- | Hin] & Ht').
      * apply (contains_inside n t EmptyString). exact Ht'.
      * assert (H : Py.contains n (joined texts) = true) by (apply IH; eauto).
        apply (contains_inside n _ (t ++ Newline)%string EmptyString) in H.
        rewrite append_nil_r in H. unfold Newline in H. now rewrite append_assoc in H.
Qed.

(** X5.  A text without a newline (an item code, a label) is found in the
    text of the document exactly when it is found in the text of one of its
    pages: joining the pages neither hides a code nor makes one up across a
    page break. *)
Theorem X5_a_code_is_found_on_a_page
        (pages : list page) (text : string) (tables : list table) (n : string) :
  extract_text_from_pdf pages = Some (text, tables) ->
  no_newline n -> n <> EmptyString ->
  (Py.contains n text = true <->
   exists t ts, In (Some t, ts) pages /\ Py.contains n t = true).
Proof.
  intros He Hn Hne.
  assert (Hall : forall p, In p pages -> fst p <> None).
  { intros p Hin Hp.
    assert (extract_text_from_pdf pages = None)
      by (apply extract_pages_none; eauto).
    congruence. }
  destruct (extract_pages_some pages EmptyString [] Hall) as (texts & Hm & He').
  unfold extract_text_from_pdf in He. rewrite He' in He. injection He as <- _.
  cbn [append]. rewrite (contains_joined n texts Hn Hne).
  assert (Hpages : forall t, In t texts <-> exists ts, In (Some t, ts) pages).
  { clear -Hm. revert texts Hm. induction pages as [|[o ts] pages IH]; intros texts Hm.
    - destruct texts; [|discriminate]. split; [intros [] | intros (ts & [])].
    - destruct texts as [|t' texts]; [discriminate|]. simpl in Hm.
      injection Hm as -> Hm. specialize (IH texts Hm). intros t. split.
      + intros [<- | Hin]; [exists ts; now left|].
        apply IH in Hin as (ts' & Hin). exists ts'. now right.
      + intros (ts' & [Heq | Hin]).
        * injection Heq as -> _. now left.
        * right. apply IH. eauto. }
  split.
  - intros (t & Hin & Ht). apply Hpages in Hin as (ts & Hin). eauto.
  - intros (t & ts & Hin & Ht). exists t. split; [apply Hpages; eauto | exact Ht].
Qed.

End Pages.

(** ** The text-pattern pass *)

Section Pattern.

Context {PF : PyFloat}.

Lemma take_digits_inv (n : nat) (s d r : string) :
  Py.take_digits n s = Some (d, r) ->
  s = (d ++ r)%string /\ String.length d = n /\ digits d.
Proof.
  unfold digits. revert s d r. induction n as [|n IH]; simpl; intros s d r H.
  - injection H as <- <-. auto.
  - destruct s as [|c s]; [discriminate|].
    destruct (Py.is_digit c) eqn:Hc; [|discriminate].
    destruct (Py.take_digits n s) as [[d' r']|] eqn:Ht; [|discriminate].
    injection H as <- <-. destruct (IH _ _ _ Ht) as (-> & <- & Hd).
    simpl. rewrite Hc. auto.
Qed.

Lemma take_digits_run (d r : string) :
  digits d -> Py.take_digits (String.length d) (d ++ r)%string = Some (d, r).
Proof.
  unfold digits. induction d as [|c d IH]; simpl; intros H; [reflexivity|].
  apply andb_true_iff in H as [Hc H]. now rewrite Hc, (IH H).
Qed.

(** The first thing [plus] tries is the longest run. *)
Lemma plus_run {R : Type} (cls : ascii -> bool) (k : string -> string -> option R)
      (g rest : string) (r : R) :
  g <> EmptyString ->
  forallb cls (list_ascii_of_string g) = true ->
  (rest = EmptyString \/ exists c rest', rest = String c rest' /\ cls c = false) ->
  forall acc, k (acc ++ g)%string rest = Some r ->
              Py.plus cls k acc (g ++ rest)%string = Some r.
Proof.
  intros Hne Hall Hrest.
  assert (Hstop : forall acc, Py.plus cls k acc rest = None).
  { intros acc. destruct Hrest as [-> | (c & rest' & -> & Hc)]; simpl;
      [reflexivity | now rewrite Hc]. }
  induction g as [|c g IH]; [congruence|]. intros acc Hk.
  simpl in Hall. apply andb_true_iff in Hall as [Hc Hall].
  cbn [append Py.plus]. rewrite Hc.
  destruct g as [|c' g].
  - cbn [append]. rewrite Hstop. exact Hk.
  - rewrite (IH ltac:(discriminate) Hall (acc ++ String c EmptyString)%string).
    + reflexivity.
    + now rewrite append_assoc.
Qed.

(** What a match of the line pattern looks like. *)
Lemma item_line_at_inv (s c g2 g3 : string) :
  Py.item_line_at s = Some (c, g2, g3) ->
  String.length c = 9 /\ digits c /\
  exists s1 s2, s = (c ++ s1 ++ g2 ++ s2 ++ g3)%string.
Proof.
  unfold Py.item_line_at.
  destruct (Py.take_digits 9 s) as [[code r0]|] eqn:Ht; [|discriminate].
  intros H. apply take_digits_inv in Ht as (-> & Hlen & Hd).
  apply plus_inv in H as (s1 & r1 & _ & _ & -> & H).
  apply plus_inv in H as (x2 & r2 & _ & _ & -> & H).
  apply plus_inv in H as (s2 & r3 & _ & _ & -> & H).
  apply plus_inv in H as (x3 & r4 & _ & _ & -> & H).
  destruct r4; [|discriminate]. simpl in H. injection H as <- <- <-.
  split; [exact Hlen|]. split; [exact Hd|].
  exists s1, s2. now rewrite append_nil_r.
Qed.

Lemma findall_item_line_inv (s : string) (m : string * string * string) :
  In m (Py.findall_item_line s) ->
  exists p rest, s = (p ++ rest)%string /\ Py.item_line_at rest = Some m.
Proof.
  induction s as [|a s IH]; cbn [Py.findall_item_line].
  - destruct (Py.item_line_at EmptyString) as [m'|] eqn:Hm; [|intros []].
    intros [<- | []]. now exists EmptyString, EmptyString.
  - destruct (Py.item_line_at (String a s)) as [m'|] eqn:Hm.
    + intros [<- | []]. now exists EmptyString, (String a s).
    + intros H. destruct (IH H) as (p & rest & -> & Hr).
      now exists (String a p), rest.
Qed.

(** An item of the pattern pass: a line of the text, a code of nine digits
    on it, and the two conversions. *)
Lemma pattern_items_inv (text : string) (it : item) :
  In it (pattern_items_in text) ->
  exists line g2 g3 q a,
    In line (Py.split_lines text) /\
    Py.contains (Item_Code it) line = true /\
    String.length (Item_Code it) = 9 /\ digits (Item_Code it) /\
    py_float g2 = Some q /\ py_float g3 = Some a /\
    it = new_item (Item_Code it) (Flt q) a.
Proof.
  unfold pattern_items_in. intros H.
  apply in_flat_map in H as (line & Hline & H).
  apply in_flat_map in H as ([[c g2] g3] & Hm & H).
  unfold item_of_match in H.
  destruct (py_float g2) as [q|] eqn:Hq; [|contradiction].
  destruct (py_float g3) as [a|] eqn:Ha; [|contradiction].
  destruct H as [<- | []].
  apply findall_item_line_inv in Hm as (p & rest & -> & Hm).
  apply item_line_at_inv in Hm as (Hlen & Hd & s1 & s2 & ->).
  exists (p ++ c ++ s1 ++ g2 ++ s2 ++ g3)%string, g2, g3, q, a. simpl.
  repeat split; auto.
  apply contains_iff. now exists p, (s1 ++ g2 ++ s2 ++ g3)%string.
Qed.

Lemma known_items_in_iff (text : string) (it : item) :
  In it (known_items_in text) <->
  In it sample_items /\ Py.contains (Item_Code it) text = true.
Proof. unfold known_items_in. apply filter_In. Qed.

(** X6.  Every item that [extract_items_from_starbucks_invoice] returns has
    a code that appears in the text.  The items are either all entries of the
    known-items list, or all items of the text-pattern pass: then no known
    code appears in the text, and each item has a code of nine digits that is
    not a code of the known-items list, a float quantity and no GL field. *)
Theorem X6_extracted_codes_appear_in_the_text (text : string) (it : item) :
  In it (extract_items_from_starbucks_invoice text) ->
  Py.contains (Item_Code it) text = true /\
  (extract_items_from_starbucks_invoice text = known_items_in text /\
   In it sample_items
   \/
   extract_items_from_starbucks_invoice text = pattern_items_in text /\
   known_items_in text = [] /\
   String.length (Item_Code it) = 9 /\ digits (Item_Code it) /\
   (forall k, In k sample_items -> Item_Code k <> Item_Code it) /\
   exists q, it = new_item (Item_Code it) (Flt q) (Line_Total it)).
Proof.
  unfold extract_items_from_starbucks_invoice.
  destruct (known_items_in text) as [|k ks] eqn:Hk.
  - intros Hin.
    destruct (pattern_items_inv text it Hin)
      as (line & g2 & g3 & q & a & Hline & Hc & Hlen & Hd & _ & _ & Hit).
    assert (Hct : Py.contains (Item_Code it) text = true)
      by (eapply contains_line; eassumption).
    split; [exact Hct|]. right. repeat split; auto.
    + intros k Hks Heq.
      assert (Hin' : In k (known_items_in text)).
      { apply known_items_in_iff. split; [exact Hks|]. now rewrite Heq. }
      rewrite Hk in Hin'. contradiction.
    + exists q. rewrite Hit. reflexivity.
  - intros Hin. rewrite <- Hk in Hin.
    apply known_items_in_iff in Hin as (Hs & Hc).
    split; [exact Hc|]. left. split; [reflexivity | exact Hs].
Qed.

Lemma separator_non_digit (s : string) : separator s -> gap s.
Proof.
  unfold gap.
  intros [Hne Hall]. split; [exact Hne|].
  clear Hne. induction s as [|c s IH]; simpl in *; [reflexivity|].
  apply andb_true_iff in Hall as [Hc Hall]. rewrite (IH Hall), andb_true_r.
  unfold Py.non_digit. unfold Py.digit_or_dot in Hc.
  apply negb_true_iff in Hc. apply orb_false_iff in Hc as [-> _]. reflexivity.
Qed.

Lemma separator_head (s rest : string) :
  separator s ->
  exists c rest', (s ++ rest)%string = String c rest' /\ Py.digit_or_dot c = false.
Proof.
  intros [Hne Hall]. destruct s as [|c s]; [congruence|].
  simpl in Hall. apply andb_true_iff in Hall as [Hc _].
  exists c, (s ++ rest)%string. split; [reflexivity | now apply negb_true_iff].
Qed.

Lemma number_text_head (s rest : string) :
  number_text s ->
  exists c rest', (s ++ rest)%string = String c rest' /\ Py.non_digit c = false.
Proof.
  intros [(c & s' & -> & Hc) _]. exists c, (s' ++ rest)%string.
  split; [reflexivity|]. unfold Py.non_digit. now rewrite Hc.
Qed.

Lemma number_text_nonempty (s : string) : number_text s -> s <> EmptyString.
Proof. intros [(c & s' & -> & _) _]. discriminate. Qed.

(** A line made of a code, text without digits, a number, a separator and a
    number is matched at its start, with these groups. *)
Lemma item_line_at_shape (c s1 n1 s2 n2 : string) :
  String.length c = 9 -> digits c ->
  gap s1 -> number_text n1 -> separator s2 -> number_text n2 ->
  Py.item_line_at (c ++ s1 ++ n1 ++ s2 ++ n2)%string = Some (c, n1, n2).
Proof.
  intros Hlen Hd Hs1 Hn1 Hs2 Hn2. unfold Py.item_line_at.
  rewrite <- Hlen, (take_digits_run c _ Hd).
  destruct Hs1 as (Hne1 & Hall1).
  destruct (separator_non_digit s2 Hs2) as (Hne2 & Hall2).
  apply plus_run; auto.
  { right. destruct (number_text_head n1 (s2 ++ n2)%string Hn1) as (x & r & -> & Hx). eauto. }
  apply plus_run; [now apply number_text_nonempty | apply Hn1 | |].
  { right. destruct (separator_head s2 n2 Hs2) as (x & r & -> & Hx). eauto. }
  apply plus_run; auto.
  { right. destruct (number_text_head n2 EmptyString Hn2) as (x & r & Hr & Hx).
    rewrite append_nil_r in Hr. eauto. }
  rewrite <- (append_nil_r n2) at 1.
  apply plus_run; [now apply number_text_nonempty | apply Hn2 | now left |].
  reflexivity.
Qed.

(** X7.  A line of the text made of a nine-digit code, text without digits
    and dots, a number, again text without digits and dots, and a number at
    the end of the line gives the item with that code, the first number as
    quantity and the second as line total, whatever the two numbers are (no
    positivity check).  It is in the result of the extraction when no known
    code appears in the text. *)
Theorem X7_a_well_formed_line_gives_its_item
        (text line c s1 n1 s2 n2 : string) (q a : float) :
  In line (Py.split_lines text) ->
  line = (c ++ s1 ++ n1 ++ s2 ++ n2)%string ->
  String.length c = 9 -> digits c ->
  separator s1 -> number_text n1 -> separator s2 -> number_text n2 ->
  py_float n1 = Some q -> py_float n2 = Some a ->
  In (new_item c (Flt q) a) (pattern_items_in text) /\
  (known_items_in text = [] ->
   In (new_item c (Flt q) a) (extract_items_from_starbucks_invoice text)).
Proof.
  intros Hline -> Hlen Hd Hs1 Hn1 Hs2 Hn2 Hq Ha.
  assert (Hin : In (new_item c (Flt q) a) (pattern_items_in text)).
  { unfold pattern_items_in. apply in_flat_map. eexists. split; [exact Hline|].
    apply in_flat_map. exists (c, n1, n2). split.
    - assert (Hm := item_line_at_shape c s1 n1 s2 n2 Hlen Hd
                      (separator_non_digit s1 Hs1) Hn1 Hs2 Hn2).
      destruct c as [|x c]; [discriminate|].
      cbn [append Py.findall_item_line] in *. rewrite Hm. now left.
    - unfold item_of_match. rewrite Hq, Ha. now left. }
  split; [exact Hin|].
  intros Hk. unfold extract_items_from_starbucks_invoice. now rewrite Hk.
Qed.

Lemma gap_dot (s : string) : separator s -> gap (s ++ ".")%string.
Proof.
  intros Hs. destruct (separator_non_digit s Hs) as (Hne & Hall). split.
  - destruct s; [congruence | discriminate].
  - clear -Hall. induction s as [|c s IH]; simpl in *; [reflexivity|].
    apply andb_true_iff in Hall as [Hc Hall]. now rewrite Hc, (IH Hall).
Qed.

(** X23.  A dot directly in front of the first number of an item line is
    taken as part of the text before it: on a line made of a nine-digit code,
    text, a dot, a number, text and a number, the quantity is the number
    after the dot (".5" is read as 5), and the line gives this one item. *)
Theorem X23_a_leading_dot_is_not_read
        (text line c s1 n1 s2 n2 : string) (q a : float) :
  In line (Py.split_lines text) ->
  line = (c ++ s1 ++ "." ++ n1 ++ s2 ++ n2)%string ->
  String.length c = 9 -> digits c ->
  separator s1 -> number_text n1 -> separator s2 -> number_text n2 ->
  py_float n1 = Some q -> py_float n2 = Some a ->
  flat_map item_of_match (Py.findall_item_line line) = [new_item c (Flt q) a] /\
  In (new_item c (Flt q) a) (pattern_items_in text).
Proof.
  intros Hline -> Hlen Hd Hs1 Hn1 Hs2 Hn2 Hq Ha.
  assert (Hm : Py.findall_item_line (c ++ s1 ++ "." ++ n1 ++ s2 ++ n2)%string =
               [(c, n1, n2)]).
  { assert (Hm := item_line_at_shape c (s1 ++ ".") n1 s2 n2 Hlen Hd
                    (gap_dot s1 Hs1) Hn1 Hs2 Hn2).
    rewrite append_assoc in Hm.
    destruct c as [|x c]; [discriminate|].
    cbn [append Py.findall_item_line] in *. now rewrite Hm. }
  assert (Hitems : flat_map item_of_match
                     (Py.findall_item_line (c ++ s1 ++ "." ++ n1 ++ s2 ++ n2)%string) =
                   [new_item c (Flt q) a]).
  { rewrite Hm. simpl. unfold item_of_match. now rewrite Hq, Ha. }
  split; [exact Hitems|].
  unfold pattern_items_in. apply in_flat_map. eexists. split; [exact Hline|].
  rewrite Hitems. now left.
Qed.

End Pattern.

(** ** The table-driven pass, row by row *)

Section Rows.

Context {PF : PyFloat}.

Lemma table_pass_rows (tables : list table) :
  table_pass tables = fold_left process_row (List.concat tables) scan0.
Proof.
  unfold table_pass. generalize scan0.
  induction tables as [|t tables IH]; intros st; simpl; [reflexivity|].
  now rewrite fold_left_app, IH.
Qed.

Lemma process_row_short (st : scan) (r : row) :
  List.length r < 10 -> process_row st r = st.
Proof.
  intros H. unfold process_row.
  destruct (Nat.ltb_spec (List.length r) 10); [reflexivity | lia].
Qed.

Lemma is_code9_inv (s : string) :
  Py.is_code9 s = true ->
  exists d, String.length d = 9 /\ digits d /\
            (s = d \/ s = (d ++ String Py.newline EmptyString)%string).
Proof.
  unfold Py.is_code9.
  destruct (Py.take_digits 9 s) as [[d r]|] eqn:Ht; [|discriminate].
  apply take_digits_inv in Ht as (-> & Hlen & Hd).
  destruct r as [|c [|c' r]]; try discriminate; intros H; exists d; repeat split; auto.
  - left. now rewrite append_nil_r.
  - right. apply Ascii.eqb_eq in H. now subst c.
Qed.

(** The items of a run of rows: those there before, then at most one
    accepted item per row. *)
Lemma rows_items (rows : list row) (st : scan) (it : item) :
  In it (items (fold_left process_row rows st)) ->
  In it (items st) \/
  exists r q a,
    In r rows /\ 10 <= List.length r /\
    cell_at r 1 = CStr (Item_Code it) /\
    accepted (Item_Code it) r q a /\ it = new_item (Item_Code it) (Flt q) a.
Proof.
  revert st. induction rows as [|r rows IH]; simpl; intros st Hin; [now left|].
  destruct (IH _ Hin) as [Hst | (r' & q & a & Hr' & H)].
  - destruct (process_row_items st r)
      as [(Hi & _) | (c & q & a & Hc & Hacc & Hi & _)]; rewrite Hi in Hst.
    + now left.
    + apply in_app_or in Hst as [Hst | [<- | []]]; [now left|].
      right. exists r, q, a. split; [now left|]. split.
      { destruct (Nat.lt_ge_cases (List.length r) 10) as [Hlt | Hge]; [|exact Hge].
        rewrite (process_row_short st r Hlt) in Hi.
        apply (f_equal (@List.length _)) in Hi. rewrite length_app in Hi.
        simpl in Hi. lia. }
      split; [exact Hc|]. split; [exact Hacc | reflexivity].
  - right. exists r', q, a. split; [now right | exact H].
Qed.

Lemma rows_count (rows : list row) (st : scan) :
  List.length (items (fold_left process_row rows st)) <=
  List.length (items st) + List.length rows.
Proof.
  revert st. induction rows as [|r rows IH]; simpl; intros st; [lia|].
  specialize (IH (process_row st r)).
  destruct (process_row_items st r) as [(Hi & _) | (c & q & a & _ & _ & Hi & _)];
    rewrite Hi in IH; [|rewrite length_app in IH; simpl in IH]; lia.
Qed.

(** Later rows keep the items accepted so far, in front. *)
Lemma rows_keep (rows : list row) (st : scan) :
  exists more, items (fold_left process_row rows st) = items st ++ more.
Proof.
  revert st. induction rows as [|r rows IH]; simpl; intros st.
  - exists []. now rewrite app_nil_r.
  - destruct (IH (process_row st r)) as [more Hm]. rewrite Hm.
    destruct (process_row_items st r) as [(-> & _) | (c & q & a & _ & _ & -> & _)].
    + now exists more.
    + eexists. now rewrite <- app_assoc.
Qed.

(** X8.  Every item of the table-driven pass comes from a row of at least
    ten cells of one of the tables: its code is the second cell of the row,
    nine digits (possibly followed by a newline), its quantity and line total
    are the floats of the eighth and tenth cells, and it has no GL field yet.
    The pass yields at most one item per row. *)
Theorem X8_table_items_come_from_rows (tables : list table) :
  (forall it, In it (items (table_pass tables)) ->
     exists t r q,
       In t tables /\ In r t /\ 10 <= List.length r /\
       cell_at r 1 = CStr (Item_Code it) /\
       to_float (cell_at r 7) = Some q /\
       to_float (cell_at r 9) = Some (Line_Total it) /\
       it = new_item (Item_Code it) (Flt q) (Line_Total it) /\
       exists d, String.length d = 9 /\ digits d /\
                 (Item_Code it = d \/
                  Item_Code it = (d ++ String Py.newline EmptyString)%string)) /\
  List.length (items (table_pass tables)) <= List.length (List.concat tables).
Proof.
  rewrite table_pass_rows. split.
  - intros it Hin. apply rows_items in Hin as [[] | (r & q & a & Hr & Hlen & Hc & Hacc & Hit)].
    apply in_concat in Hr as (t & Ht & Hr).
    destruct Hacc as (H9 & _ & _ & Hq & _ & _ & Ha & _).
    assert (Hlt : Line_Total it = a) by (rewrite Hit; reflexivity).
    exists t, r, q. rewrite Hlt. repeat split; auto.
    now apply is_code9_inv.
  - apply (rows_count (List.concat tables) scan0).
Qed.

Lemma rows_mono (rows : list row) (st : scan) (it : item) :
  In it (items st) -> In it (items (fold_left process_row rows st)).
Proof.
  intros H. destruct (rows_keep rows st) as [more ->]. apply in_or_app. now left.
Qed.

(** X9.  A row of at least ten cells that is not a header row, whose second
    cell is a code of nine digits, whose text has neither "SHIPPING" nor
    "HDLG", and whose eighth and tenth cells are non-empty numeric cells with
    strictly positive values, is accepted: the item is appended, the flag
    [tables_processed] is set, and the item stays in the result of the table
    pass of any tables that have the row. *)
Theorem X9_a_well_formed_row_is_accepted
        (tables : list table) (t : table) (st : scan) (r : row) (c : string) (q a : float) :
  10 <= List.length r ->
  is_header r = false ->
  cell_at r 1 = CStr c ->
  Py.contains "SHIPPING" (row_str r) || Py.contains "HDLG" (row_str r) = false ->
  accepted c r q a ->
  (items (process_row st r) = items st ++ [new_item c (Flt q) a] /\
   tables_processed (process_row st r) = true) /\
  (In t tables -> In r t -> In (new_item c (Flt q) a) (items (table_pass tables))).
Proof.
  intros Hlen Hhdr Hc Hship Hacc.
  assert (Hrow : forall st', items (process_row st' r) = items st' ++ [new_item c (Flt q) a] /\
                             tables_processed (process_row st' r) = true).
  { intros st'. rewrite (process_row_eq st' r Hlen Hhdr), Hc, Hship.
    destruct Hacc as (H9 & T7 & N7 & F7 & T9 & N9 & F9 & Hq & Ha).
    assert (Hne : String.eqb c EmptyString = false).
    { destruct c; [discriminate | reflexivity]. }
    rewrite Hne. unfold parse_line_item.
    rewrite H9, T7, N7, F7, T9, N9, F9, Hq, Ha. simpl.
    destruct (route_row_totals_frame (row_str r) st') as (-> & _). auto. }
  split; [apply Hrow|].
  intros Ht Hr. rewrite table_pass_rows.
  assert (Hin : In r (List.concat tables)) by (apply in_concat; eauto).
  apply in_split in Hin as (l1 & l2 & ->).
  rewrite fold_left_app. simpl. apply rows_mono.
  destruct (Hrow (fold_left process_row l1 scan0)) as (-> & _).
  apply in_or_app. right. now left.
Qed.

(** X10.  Tables whose rows all have fewer than ten cells are as good as no
    tables: the table pass accepts nothing and finds no total, and the
    invoice is processed from its text alone. *)
Theorem X10_narrow_tables_are_ignored
        (text : string) (tables : list table) (db : database) :
  (forall t r, In t tables -> In r t -> List.length r < 10) ->
  table_pass tables = scan0 /\
  process_starbucks_invoice text tables db = process_starbucks_invoice text [] db /\
  main db text tables = main db text [].
Proof.
  intros Hshort.
  assert (Ht : table_pass tables = scan0).
  { rewrite table_pass_rows.
    assert (Hrows : forall r, In r (List.concat tables) -> List.length r < 10).
    { intros r Hr. apply in_concat in Hr as (t & Ht & Hr). eauto. }
    generalize scan0. induction (List.concat tables) as [|r rows IH]; intros st;
      [reflexivity|].
    simpl. rewrite process_row_short by (apply Hrows; now left).
    apply IH. intros r' Hr'. apply Hrows. now right. }
  split; [exact Ht|].
  assert (Hp : process_starbucks_invoice text tables db =
               process_starbucks_invoice text [] db).
  { unfold process_starbucks_invoice, extraction. now rewrite Ht. }
  split; [exact Hp|].
  unfold main, process_prints. now rewrite Hp, Ht.
Qed.

(** X11.  The table pass only appends: the items accepted from the first
    tables are, unchanged and in order, the first items of the pass over
    these tables followed by more tables. *)
Theorem X11_table_pass_only_appends (tables more_tables : list table) :
  exists more,
    items (table_pass (tables ++ more_tables)) = items (table_pass tables) ++ more.
Proof.
  rewrite !table_pass_rows, concat_app, fold_left_app. apply rows_keep.
Qed.

End Rows.

(** ** The totals *)

Section Totals.

Context {PF : PyFloat}.

Lemma digit_value (c : ascii) :
  Py.is_digit c = true -> (0 <= Z.of_N (N_of_ascii c) - 48)%Z.
Proof.
  unfold Py.is_digit. intros H. apply andb_true_iff in H as [H _].
  apply N.leb_le in H. lia.
Qed.

Lemma parse_fraction (h : string) :
  digits h ->
  forall m f nd, (0 <= m)%Z -> 0 < nd + String.length h ->
    exists m', (0 <= m')%Z /\
      Py.parse_decimal_from true m f nd h =
        Some (Qmake m' (Py.pow10 (f + String.length h))).
Proof.
  unfold digits. induction h as [|c h IH]; intros Hd m f nd Hm Hlen;
    cbn [Py.parse_decimal_from String.length] in *.
  - destruct nd; [lia|]. exists m. now rewrite Nat.add_0_r.
  - simpl in Hd. apply andb_true_iff in Hd as [Hc Hd]. rewrite Hc.
    destruct (IH Hd (10 * m + (Z.of_N (N_of_ascii c) - 48))%Z (S f) (S nd))
      as (m' & Hm' & ->).
    + pose proof (digit_value c Hc). lia.
    + lia.
    + exists m'. split; [exact Hm'|]. now rewrite Nat.add_succ_r.
Qed.

Lemma parse_two_decimals (g h : string) :
  digits g -> digits h ->
  forall m nd, (0 <= m)%Z -> 0 < nd + String.length g + String.length h ->
    exists m', (0 <= m')%Z /\
      Py.parse_decimal_from false m 0 nd (g ++ String "." h)%string =
        Some (Qmake m' (Py.pow10 (String.length h))).
Proof.
  unfold digits. induction g as [|c g IH]; intros Hg Hh m nd Hm Hlen;
    cbn [append Py.parse_decimal_from String.length] in *.
  - replace (Py.is_digit ".") with false by reflexivity.
    replace (Py.is_dot "." && negb false) with true by reflexivity.
    apply (parse_fraction h Hh m 0 nd Hm). lia.
  - simpl in Hg. apply andb_true_iff in Hg as [Hc Hg]. rewrite Hc.
    apply IH; auto.
    + pose proof (digit_value c Hc). lia.
    + lia.
Qed.

(** A match of [\d+\.\d{2}] is an amount in cents. *)
Lemma decimal_at_cents (s m : string) :
  Py.decimal_at s = Some m ->
  exists cents, (0 <= cents)%Z /\ Py.parse_decimal m = Some (Qmake cents 100).
Proof.
  unfold Py.decimal_at. intros H. apply plus_inv in H.
  destruct H as (g & rest & _ & Hall & _ & Hk).
  destruct rest as [|p [|d1 [|d2 rest]]]; try discriminate.
  destruct (Py.is_dot p) eqn:Hp; [|discriminate].
  destruct (Py.is_digit d1) eqn:H1; [|discriminate].
  destruct (Py.is_digit d2) eqn:H2; [|discriminate].
  simpl in Hk. injection Hk as <-.
  unfold Py.is_dot in Hp. apply Ascii.eqb_eq in Hp. subst p.
  destruct (parse_two_decimals g (String d1 (String d2 EmptyString)) Hall) with (m := 0%Z) (nd := 0)
    as (cents & Hc & Hparse).
  - unfold digits. simpl. now rewrite H1, H2.
  - lia.
  - simpl. lia.
  - exists cents. split; [exact Hc | exact Hparse].
Qed.

Lemma findall_decimal_cents (skip : nat) (s m : string) :
  In m (Py.findall_decimal_from skip s) ->
  exists cents, (0 <= cents)%Z /\ Py.parse_decimal m = Some (Qmake cents 100).
Proof.
  revert skip. induction s as [|c s IH]; simpl; intros skip H; [contradiction|].
  destruct skip as [|k]; [|eapply IH; eassumption].
  destruct (Py.decimal_at (String c s)) as [m'|] eqn:Hd; [|eapply IH; eassumption].
  destruct H as [<- | H]; [eapply decimal_at_cents | eapply IH]; eassumption.
Qed.

Lemma last_amount_cents (s : string) (v : float) :
  last_amount s = Some v ->
  exists cents, (0 <= cents)%Z /\ v = float_of_Q (Qmake cents 100).
Proof.
  unfold last_amount.
  destruct (Py.last_of (Py.findall_decimal s)) as [m|] eqn:Hm; [|discriminate].
  apply last_of_In, findall_decimal_cents in Hm as (cents & Hc & Hp).
  unfold py_float. rewrite Hp. simpl. intros H. injection H as <-. eauto.
Qed.

Lemma store_amounts (s : string) (st : scan) :
  amounts st ->
  amounts (store set_subtotal s st) /\ amounts (store set_tax s st) /\
  amounts (store set_total s st) /\ amounts (store set_shipping s st).
Proof.
  intros (H1 & H2 & H3 & H4). unfold store.
  destruct (last_amount s) as [v|] eqn:Hv; [|unfold amounts; auto 8].
  assert (Hval : amount_value v) by (right; eapply last_amount_cents; eassumption).
  unfold amounts; simpl; auto 12.
Qed.

Lemma route_row_totals_amounts (s : string) (st : scan) :
  amounts st -> amounts (route_row_totals s st).
Proof.
  intros H. destruct (store_amounts s st H) as (H1 & H2 & H3 & _).
  unfold route_row_totals.
  destruct (Py.contains "SUB TOTAL" s); [exact H1|].
  destruct (Py.contains "TAX" s && negb (Py.contains "SUMMARY" s)); [exact H2|].
  destruct (Py.contains "TOTAL (CAD)" s); [exact H3 | exact H].
Qed.

Lemma process_row_amounts (st : scan) (r : row) :
  amounts st -> amounts (process_row st r).
Proof.
  intros H. pose proof (route_row_totals_amounts (row_str r) st H) as H1.
  destruct (process_row_cases st r) as [-> | [-> | [-> | (c & _ & _ & ->)]]]; auto.
  - now apply store_amounts.
  - unfold amounts.
    destruct (parse_line_item_totals c r (route_row_totals (row_str r) st))
      as (-> & -> & -> & ->). exact H1.
Qed.

Lemma text_totals_amounts (text : string) (st : scan) :
  amounts st -> amounts (text_totals text st).
Proof.
  unfold text_totals.
  destruct (feq0 (subtotal st) || feq0 (tax st) || feq0 (total st)); [|auto].
  generalize (Py.split_lines text) as ls. intros ls. revert st.
  induction ls as [|l ls IH]; simpl; intros st H; [exact H|].
  apply IH. destruct (store_amounts l st H) as (H1 & H2 & H3 & _).
  unfold text_totals_line.
  destruct (Py.contains "SUB TOTAL" l); [exact H1|].
  destruct (Py.contains "TAX" l && negb (Py.contains "TAX SUMMARY" l)); [exact H2|].
  destruct (Py.contains "TOTAL (CAD)" l); [exact H3 | exact H].
Qed.

Lemma text_shipping_amounts (text : string) (st : scan) :
  amounts st -> amounts (text_shipping text st).
Proof.
  unfold text_shipping.
  destruct (feq0 (shipping_amount st)); [|auto].
  generalize (Py.split_lines text) as ls. intros ls. revert st.
  induction ls as [|l ls IH]; simpl; intros st H; [exact H|].
  apply IH. destruct (store_amounts l st H) as (_ & _ & _ & H4).
  unfold text_shipping_line.
  destruct (Py.contains "SHIPPING" l || Py.contains "HDLG" l); [exact H4 | exact H].
Qed.

(** X12.  Whatever the document, each of the subtotal, tax, total and
    shipping figures that [process_starbucks_invoice] returns is either the
    initial 0.0 or the float of a non-negative amount with exactly two
    decimals: a sign in front of an amount is never read. *)
Theorem X12_totals_are_unsigned_amounts
        (text : string) (tables : list table) (db : database) :
  let st := process_starbucks_invoice text tables db in
  amount_value (subtotal st) /\ amount_value (tax st) /\
  amount_value (total st) /\ amount_value (shipping_amount st).
Proof.
  assert (Ht : amounts (table_pass tables)).
  { apply table_pass_ind.
    - unfold amounts, amount_value. simpl. auto.
    - intros st r. apply process_row_amounts. }
  assert (Hc : amounts (choose_items text (table_pass tables))).
  { unfold amounts.
    destruct (choose_items_totals text (table_pass tables)) as (-> & -> & -> & ->).
    exact Ht. }
  apply text_totals_amounts with (text := text) in Hc.
  apply text_shipping_amounts with (text := text) in Hc.
  exact Hc.
Qed.

End Totals.

Section Amounts.

Context {PF : PyFloat}.

Lemma decimal_at_run (ds rest : string) (d1 d2 : ascii) :
  ds <> EmptyString -> digits ds ->
  Py.is_digit d1 = true -> Py.is_digit d2 = true ->
  Py.decimal_at (ds ++ String "." (String d1 (String d2 rest)))%string =
  Some (ds ++ String "." (String d1 (String d2 EmptyString)))%string.
Proof.
  intros Hne Hd H1 H2. unfold Py.decimal_at. apply plus_run; auto.
  - right. exists "."%char, (String d1 (String d2 rest)). split; reflexivity.
  - cbn [append]. replace (Py.is_dot ".") with true by reflexivity.
    now rewrite H1, H2.
Qed.

Lemma findall_decimal_skip_all (s : string) (skip : nat) :
  String.length s <= skip -> Py.findall_decimal_from skip s = [].
Proof.
  revert skip. induction s as [|c s IH]; simpl; intros skip H; [reflexivity|].
  destruct skip as [|k]; [lia|]. apply IH. lia.
Qed.

(** A match at the head of a text is made of digits and dots and starts the
    text. *)
Lemma decimal_at_prefix (s m : string) :
  Py.decimal_at s = Some m ->
  forallb Py.digit_or_dot (list_ascii_of_string m) = true /\
  exists rest, s = (m ++ rest)%string.
Proof.
  unfold Py.decimal_at. intros H. apply plus_inv in H.
  destruct H as (g & rest & _ & Hall & -> & Hk).
  destruct rest as [|p [|d1 [|d2 rest]]]; try discriminate.
  destruct (Py.is_dot p) eqn:Hp; [|discriminate].
  destruct (Py.is_digit d1) eqn:H1; [|discriminate].
  destruct (Py.is_digit d2) eqn:H2; [|discriminate].
  simpl in Hk. injection Hk as <-. split.
  - clear -Hall Hp H1 H2. induction g as [|c g IH]; simpl in *.
    + unfold Py.digit_or_dot. now rewrite Hp, H1, H2, !orb_true_r.
    + apply andb_true_iff in Hall as [Hc Hall]. unfold Py.digit_or_dot at 1.
      now rewrite Hc, (IH Hall).
  - exists rest. now rewrite !append_assoc.
Qed.

Lemma run_stops_before (m q rest rest' : string) (c : ascii) :
  forallb Py.digit_or_dot (list_ascii_of_string m) = true ->
  Py.digit_or_dot c = false ->
  (m ++ rest)%string = (q ++ String c rest')%string ->
  String.length m <= String.length q.
Proof.
  revert q. induction m as [|x m IH]; simpl; intros q Hall Hc H; [lia|].
  apply andb_true_iff in Hall as [Hx Hall].
  destruct q as [|y q]; simpl in H.
  - injection H as -> _. congruence.
  - injection H as _ H. specialize (IH q Hall Hc H). simpl. lia.
Qed.

Lemma ends_apart_tail (a : ascii) (p : string) :
  ends_apart (String a p) ->
  ends_apart p /\
  exists q c, String a p = (q ++ String c EmptyString)%string /\
              Py.digit_or_dot c = false.
Proof.
  intros [H | (q & c & Hq & Hc)]; [discriminate|].
  split; [|eauto].
  destruct p as [|b p]; [now left|]. right.
  destruct q as [|y q]; [discriminate|]. simpl in Hq. injection Hq as _ Hq. eauto.
Qed.

(** The matches in a text that ends with an amount, after text that ends
    apart from it: the last one is the amount. *)
Lemma findall_decimal_ending (m : string) :
  (exists c m', m = String c m') ->
  Py.decimal_at m = Some m ->
  forall p skip,
    ends_apart p -> skip <= String.length p ->
    exists earlier,
      Py.findall_decimal_from skip (p ++ m)%string = earlier ++ [m].
Proof.
  intros (c0 & m0 & Hm) Hat. induction p as [|a p IH]; intros skip Hp Hskip.
  - simpl in Hskip. assert (skip = 0) by lia. subst skip. cbn [append].
    exists []. rewrite Hm at 1. cbn [Py.findall_decimal_from]. rewrite <- Hm, Hat.
    rewrite findall_decimal_skip_all; [reflexivity|]. rewrite Hm. simpl. lia.
  - destruct (ends_apart_tail a p Hp) as (Hp' & q & c & Hq & Hc).
    cbn [append Py.findall_decimal_from]. destruct skip as [|k].
    + destruct (Py.decimal_at (String a (p ++ m))) as [m'|] eqn:Hd.
      * apply decimal_at_prefix in Hd as (Hall & rest & Hrest).
        assert (Hlen : String.length m' <= String.length q).
        { apply (run_stops_before m' q rest m c Hall Hc).
          rewrite <- Hrest.
          change (String a (p ++ m)) with (String a p ++ m)%string.
          rewrite Hq. now rewrite append_assoc. }
        assert (Hpq : String.length (String a p) = String.length q + 1).
        { rewrite Hq, length_append. reflexivity. }
        simpl in Hpq.
        destruct (IH (String.length m' - 1) Hp' ltac:(lia)) as [earlier ->].
        now exists (m' :: earlier).
      * apply (IH 0 Hp'). lia.
    + apply (IH k Hp'). simpl in Hskip. lia.
Qed.

(** X13.  When a text ends with an amount (digits, a dot, two digits) and
    what comes before the amount is empty or ends with a character that is
    neither a digit nor a dot, the value read from the text is that amount,
    whatever numbers come earlier in the text; a line with the label
    "SUB TOTAL" that ends so sets the subtotal to it. *)
Theorem X13_the_amount_at_the_end_is_read
        (st : scan) (p ds : string) (d1 d2 : ascii) :
  ends_apart p ->
  ds <> EmptyString -> digits ds ->
  Py.is_digit d1 = true -> Py.is_digit d2 = true ->
  let m := (ds ++ String "." (String d1 (String d2 EmptyString)))%string in
  exists cents,
    (0 <= cents)%Z /\
    Py.parse_decimal m = Some (Qmake cents 100) /\
    Py.last_of (Py.findall_decimal (p ++ m)%string) = Some m /\
    last_amount (p ++ m)%string = Some (float_of_Q (Qmake cents 100)) /\
    (Py.contains "SUB TOTAL" (p ++ m)%string = true ->
     subtotal (text_totals_line st (p ++ m)%string) = float_of_Q (Qmake cents 100)).
Proof.
  intros Hp Hne Hd H1 H2 m.
  assert (Hat : Py.decimal_at m = Some m)
    by (apply (decimal_at_run ds EmptyString d1 d2); assumption).
  destruct (decimal_at_cents m m Hat) as (cents & Hc & Hparse).
  assert (Hcons : exists c m', m = String c m').
  { subst m. destruct ds as [|c ds]; [congruence|]. simpl. eauto. }
  destruct (findall_decimal_ending m Hcons Hat p 0 Hp ltac:(lia)) as [earlier He].
  assert (Hlast : Py.last_of (Py.findall_decimal (p ++ m)%string) = Some m).
  { unfold Py.findall_decimal. rewrite He. apply last_of_app. }
  assert (Hamount : last_amount (p ++ m)%string = Some (float_of_Q (Qmake cents 100))).
  { unfold last_amount. rewrite Hlast. unfold py_float. now rewrite Hparse. }
  exists cents. repeat split; auto.
  intros Hlabel. unfold text_totals_line, store. now rewrite Hlabel, Hamount.
Qed.

Lemma text_totals_line_without (st : scan) (line : string) :
  (Py.contains "SUB TOTAL" line = false -> subtotal (text_totals_line st line) = subtotal st) /\
  (Py.contains "TAX" line = false -> tax (text_totals_line st line) = tax st) /\
  (Py.contains "TOTAL (CAD)" line = false -> total (text_totals_line st line) = total st).
Proof.
  unfold text_totals_line, store.
  destruct (Py.contains "SUB TOTAL" line), (Py.contains "TAX" line),
    (Py.contains "TAX SUMMARY" line), (Py.contains "TOTAL (CAD)" line),
    (last_amount line); simpl; repeat split; intros; try reflexivity; discriminate.
Qed.

Lemma contains_line_false (n text line : string) :
  Py.contains n text = false -> In line (Py.split_lines text) ->
  Py.contains n line = false.
Proof.
  intros Ht Hl. destruct (Py.contains n line) eqn:Hn; [|reflexivity].
  rewrite (contains_line n text line Hl Hn) in Ht. discriminate.
Qed.

Lemma fold_keeps {A : Type} (f : scan -> string -> scan) (field : scan -> A)
      (ls : list string) (st : scan) :
  (forall st l, In l ls -> field (f st l) = field st) ->
  field (fold_left f ls st) = field st.
Proof.
  revert st. induction ls as [|l ls IH]; simpl; intros st H; [reflexivity|].
  rewrite IH; [apply H; now left|]. intros st' l' Hl'. apply H. now right.
Qed.

(** X14.  A figure whose label is nowhere in the text keeps the value of the
    table pass: the subtotal when the text has no "SUB TOTAL", the tax when
    it has no "TAX", the total when it has no "TOTAL (CAD)", the shipping
    figure when it has neither "SHIPPING" nor "HDLG". *)
Theorem X14_a_missing_label_changes_nothing (text : string) (tables : list table) :
  (Py.contains "SUB TOTAL" text = false ->
   subtotal (extraction text tables) = subtotal (table_pass tables)) /\
  (Py.contains "TAX" text = false ->
   tax (extraction text tables) = tax (table_pass tables)) /\
  (Py.contains "TOTAL (CAD)" text = false ->
   total (extraction text tables) = total (table_pass tables)) /\
  (Py.contains "SHIPPING" text = false -> Py.contains "HDLG" text = false ->
   shipping_amount (extraction text tables) = shipping_amount (table_pass tables)).
Proof.
  unfold extraction.
  destruct (choose_items_totals text (table_pass tables)) as (Hs & Ht & Ho & Hh).
  set (st := choose_items text (table_pass tables)) in *.
  destruct (text_shipping_frame text (text_totals text st)) as (_ & Es & Et & Eo).
  rewrite Es, Et, Eo, <- Hs, <- Ht, <- Ho, <- Hh.
  assert (Hscan : forall (field : scan -> float) (n : string),
            Py.contains n text = false ->
            (forall st l, Py.contains n l = false -> field (text_totals_line st l) = field st) ->
            field (text_totals text st) = field st).
  { intros field n Hn Hline. unfold text_totals.
    destruct (feq0 (subtotal st) || feq0 (tax st) || feq0 (total st)); [|reflexivity].
    apply fold_keeps. intros st' l Hl. apply Hline.
    eapply contains_line_false; eassumption. }
  split; [|split; [|split]].
  - intros H. apply (Hscan subtotal _ H). intros st' l. apply text_totals_line_without.
  - intros H. apply (Hscan tax _ H). intros st' l. apply text_totals_line_without.
  - intros H. apply (Hscan total _ H). intros st' l. apply text_totals_line_without.
  - intros H1 H2. destruct (text_totals_frame text st) as (_ & Ef).
    rewrite <- Ef. unfold text_shipping.
    destruct (feq0 (shipping_amount (text_totals text st))); [|reflexivity].
    apply fold_keeps. intros st' l Hl. unfold text_shipping_line.
    now rewrite (contains_line_false _ _ _ H1 Hl), (contains_line_false _ _ _ H2 Hl).
Qed.

(** X15.  When the table pass found no shipping figure, the text scan takes
    it from the last line that has the label "SHIPPING" or "HDLG" and a
    decimal number: later such lines overwrite earlier ones. *)
Theorem X15_the_last_shipping_line_wins
        (text : string) (tables : list table)
        (before after : list string) (line : string) (v : float) :
  feq0 (shipping_amount (table_pass tables)) = true ->
  Py.split_lines text = before ++ line :: after ->
  Py.contains "SHIPPING" line || Py.contains "HDLG" line = true ->
  last_amount line = Some v ->
  (forall l, In l after ->
     Py.contains "SHIPPING" l || Py.contains "HDLG" l = false \/ last_amount l = None) ->
  shipping_amount (extraction text tables) = v.
Proof.
  intros Hz Hsplit Hlabel Hv Hafter. unfold extraction.
  destruct (choose_items_totals text (table_pass tables)) as (_ & _ & _ & Hh).
  set (st := choose_items text (table_pass tables)) in *.
  destruct (text_totals_frame text st) as (_ & Ef).
  unfold text_shipping. rewrite Ef, Hh, Hz, Hsplit, fold_left_app. simpl.
  rewrite fold_keeps.
  - unfold text_shipping_line, store. now rewrite Hlabel, Hv.
  - intros st' l Hl. unfold text_shipping_line, store.
    destruct (Hafter l Hl) as [-> | ->]; [reflexivity|].
    now destruct (Py.contains "SHIPPING" l || Py.contains "HDLG" l).
Qed.

End Amounts.

(** ** The shipping item and the shipping figure *)

Section Shipping.

Context {PF : PyFloat}.

Lemma process_row_unlabelled (st : scan) (r : row) :
  shipping_label (row_str r) = false ->
  shipping_amount (process_row st r) = shipping_amount st.
Proof.
  unfold shipping_label. intros Hlabel.
  destruct (route_row_totals_frame (row_str r) st) as (_ & Hship & _).
  unfold process_row. rewrite Hlabel.
  destruct (List.length r <? 10); [reflexivity|].
  destruct (is_header r); [reflexivity|].
  destruct (cell_at r 1) as [| | |c]; try exact Hship.
  destruct (String.eqb c EmptyString); [exact Hship|].
  now destruct (parse_line_item_totals c r (route_row_totals (row_str r) st))
    as (_ & _ & _ & ->).
Qed.

Lemma table_pass_unlabelled (tables : list table) :
  (forall t r, In t tables -> In r t -> shipping_label (row_str r) = false) ->
  shipping_amount (table_pass tables) = zero.
Proof.
  intros Hrows. rewrite table_pass_rows.
  assert (H : forall r, In r (List.concat tables) -> shipping_label (row_str r) = false).
  { intros r Hr. apply in_concat in Hr as (t & Ht & Hr). eauto. }
  change zero with (shipping_amount scan0). generalize scan0.
  induction (List.concat tables) as [|r rows IH]; intros st; [reflexivity|].
  simpl. rewrite IH by (intros r' Hr'; apply H; now right).
  apply process_row_unlabelled. apply H. now left.
Qed.

Lemma text_shipping_unlabelled (text : string) (st : scan) :
  shipping_label text = false ->
  shipping_amount (text_shipping text st) = shipping_amount st.
Proof.
  unfold shipping_label. intros H. apply orb_false_iff in H as [H1 H2].
  unfold text_shipping. destruct (feq0 (shipping_amount st)); [|reflexivity].
  apply fold_keeps. intros st' l Hl. unfold text_shipping_line.
  now rewrite (contains_line_false _ _ _ H1 Hl), (contains_line_false _ _ _ H2 Hl).
Qed.

Lemma text_shipping_last_line (text : string) (st : scan)
      (earlier later : list string) (line : string) (v : float) :
  feq0 (shipping_amount st) = true ->
  Py.split_lines text = earlier ++ line :: later ->
  shipping_label line = true ->
  last_amount line = Some v ->
  (forall l, In l later -> shipping_label l = false \/ last_amount l = None) ->
  shipping_amount (text_shipping text st) = v.
Proof.
  unfold shipping_label. intros Hz Hsplit Hlabel Hv Hlater.
  unfold text_shipping. rewrite Hz, Hsplit, fold_left_app. simpl.
  rewrite fold_keeps.
  - unfold text_shipping_line, store. now rewrite Hlabel, Hv.
  - intros st' l Hl. unfold text_shipping_line, store.
    destruct (Hlater l Hl) as [-> | ->]; [reflexivity|].
    now destruct (Py.contains "SHIPPING" l || Py.contains "HDLG" l).
Qed.

(** C6 (amended).  An item whose code is the shipping code "000173080"
    contributes to no bucket of the summary: the summary is the one of the
    list without it.  The standalone shipping figure that the report shows
    is not taken from that item but from the totals scan: when the table
    pass found none, it is the number on the last line of the text that has
    the label "SHIPPING" or "HDLG" and a decimal number, and it is 0.0 when
    no row of the tables and no part of the text has such a label, whatever
    items were extracted. *)
Theorem C6_shipping_item_is_not_summarised (before after : list item) (it : item) :
  Item_Code it = shipping_code ->
  generate_summary (before ++ it :: after) = generate_summary (before ++ after) /\
  (forall st, In (Amount "SHIPPING, HDLG" (shipping_amount st)) (report st)) /\
  (forall text tables db earlier line later v,
     feq0 (shipping_amount (table_pass tables)) = true ->
     Py.split_lines text = earlier ++ line :: later ->
     shipping_label line = true ->
     last_amount line = Some v ->
     (forall l, In l later -> shipping_label l = false \/ last_amount l = None) ->
     shipping_amount (process_starbucks_invoice text tables db) = v) /\
  (forall text tables db,
     (forall t r, In t tables -> In r t -> shipping_label (row_str r) = false) ->
     shipping_label text = false ->
     shipping_amount (process_starbucks_invoice text tables db) = zero).
Proof.
  intros Hcode.
  assert (Hframe : forall text tables,
            shipping_amount (text_totals text (choose_items text (table_pass tables))) =
            shipping_amount (table_pass tables)).
  { intros text tables.
    destruct (text_totals_frame text (choose_items text (table_pass tables)))
      as (_ & ->).
    now destruct (choose_items_totals text (table_pass tables)) as (_ & _ & _ & ->). }
  split; [|split; [|split]].
  - rewrite !generate_summary_fold, !fold_left_app. simpl.
    unfold summary_step at 2. now rewrite Hcode.
  - intros st. unfold report. do 4 (apply in_or_app; right). left. reflexivity.
  - intros text tables db earlier line later v Hz Hsplit Hlabel Hv Hlater.
    unfold process_starbucks_invoice, extraction. cbn [shipping_amount set_items].
    apply (text_shipping_last_line text _ earlier later line v); auto.
    now rewrite Hframe.
  - intros text tables db Hrows Htext.
    unfold process_starbucks_invoice, extraction. cbn [shipping_amount set_items].
    rewrite (text_shipping_unlabelled text _ Htext), Hframe.
    now apply table_pass_unlabelled.
Qed.

End Shipping.

(** C6, as stated, fails: the text names the shipping code and has no
    shipping label, so that the shipping item is extracted with its 332.28
    and left out of the summary while the shipping figure stays 0.0. *)
Lemma C6_counterexample :
  map Item_Code (items (process_starbucks_invoice "FREIGHT 000173080" [] reference)) =
    ["000173080"%string] /\
  map Line_Total (items (process_starbucks_invoice "FREIGHT 000173080" [] reference)) =
    [float_of_Q (33228 # 100)] /\
  generate_summary (items (process_starbucks_invoice "FREIGHT 000173080" [] reference)) = [] /\
  shipping_amount (process_starbucks_invoice "FREIGHT 000173080" [] reference) =
    float_of_Q 0 /\
  shipping_amount (process_starbucks_invoice "FREIGHT 000173080" [] reference) <>
    float_of_Q (33228 # 100).
Proof.
  repeat split; try (vm_compute; reflexivity). vm_compute. discriminate.
Qed.

Lemma C6_witness :
  Item_Code shipping_item = shipping_code /\
  generate_summary ([coffee_item] ++ shipping_item :: [unknown_item]) =
    [("ASK BOSS FOR PROPER GL"%string, float_of_Q (7256 # 100))] /\
  shipping_amount (process_starbucks_invoice shipping_lines [] reference) =
    float_of_Q 2 /\
  shipping_amount (process_starbucks_invoice "FREIGHT 000173080" [] reference) =
    float_of_Q 0.
Proof.
  assert (H : Item_Code shipping_item = shipping_code) by (vm_compute; reflexivity).
  destruct (C6_shipping_item_is_not_summarised [coffee_item] [unknown_item] shipping_item H)
    as (Hsum & _ & Hlast & Hfigure).
  split; [exact H|]. split; [|split].
  - rewrite Hsum. vm_compute. reflexivity.
  - apply (Hlast shipping_lines [] reference
                 ["SHIPPING 1.00"%string] "HDLG 2.00"%string ["THANK YOU"%string]).
    + vm_compute. reflexivity.
    + vm_compute. reflexivity.
    + vm_compute. reflexivity.
    + vm_compute. reflexivity.
    + intros l Hl. destruct Hl as [Hl | Hl]; [subst l | destruct Hl].
      left. vm_compute. reflexivity.
  - etransitivity.
    + apply Hfigure; [intros t r [] | vm_compute; reflexivity].
    + vm_compute. reflexivity.
Defined.

(** ** More on the code reconciler *)

Section Matching.

Context {PF : PyFloat}.

(** X16.  The exact pass comes first: when some reference code equals the
    item code, the item receives the GL code and GL description of the first
    such entry, also when an earlier entry matches after zero-stripping. *)
Theorem X16_the_exact_match_comes_first (db : database) (it : item) (e : db_row) :
  In e db ->
  db_Item_Code e = Item_Code it ->
  exists before first after,
    db = before ++ first :: after /\
    db_Item_Code first = Item_Code it /\
    (forall x, In x before -> db_Item_Code x <> Item_Code it) /\
    GL_Code (reconcile_item db it) = Some (db_GL_Code first) /\
    GL_Description (reconcile_item db it) = Some (db_GL_Description first).
Proof.
  intros Hin Hcode.
  destruct (find_first (fun x => String.eqb (db_Item_Code x) (Item_Code it)) db e Hin)
    as (l1 & y & l2 & Hdb & Hy & Hl1 & Hfind).
  { now apply String.eqb_eq. }
  exists l1, y, l2. split; [exact Hdb|].
  split; [now apply String.eqb_eq|].
  split; [intros x Hx; apply String.eqb_neq; now apply Hl1|].
  unfold reconcile_item, exact_match. rewrite Hfind. split; reflexivity.
Qed.

Lemma reconcile_item_by_code (db : database) (it it' : item) :
  Item_Code it = Item_Code it' ->
  GL_Code (reconcile_item db it) = GL_Code (reconcile_item db it') /\
  GL_Description (reconcile_item db it) = GL_Description (reconcile_item db it').
Proof.
  intros H. unfold reconcile_item. rewrite H.
  destruct (exact_match db (Item_Code it')) as [e|];
    [|destruct (stripped_match db (Item_Code it')) as [e|]]; split; reflexivity.
Qed.

Lemma reconcile_item_code (db : database) (it : item) :
  Item_Code (reconcile_item db it) = Item_Code it /\
  Quantity (reconcile_item db it) = Quantity it /\
  Line_Total (reconcile_item db it) = Line_Total it.
Proof.
  unfold reconcile_item.
  destruct (exact_match db (Item_Code it)) as [e|];
    [|destruct (stripped_match db (Item_Code it)) as [e|]]; repeat split.
Qed.

Lemma item_eq (a b : item) :
  Item_Code a = Item_Code b -> Quantity a = Quantity b ->
  Line_Total a = Line_Total b -> GL_Code a = GL_Code b ->
  GL_Description a = GL_Description b -> a = b.
Proof. destruct a, b; simpl; intros; subst; reflexivity. Qed.

(** X17.  The GL fields that the matching loop gives an item depend on its
    code and on the database only, not on the GL fields the item may already
    carry; running the loop a second time changes nothing. *)
Theorem X17_reconciliation_is_idempotent (db : database) (l : list item) :
  reconcile db (reconcile db l) = reconcile db l /\
  (forall it it', Item_Code it = Item_Code it' ->
     GL_Code (reconcile_item db it) = GL_Code (reconcile_item db it') /\
     GL_Description (reconcile_item db it) = GL_Description (reconcile_item db it')).
Proof.
  split; [|intros it it'; apply reconcile_item_by_code].
  unfold reconcile. rewrite map_map. apply map_ext. intros it.
  destruct (reconcile_item_code db it) as (Hc & Hq & Ht).
  destruct (reconcile_item_code db (reconcile_item db it)) as (Hc' & Hq' & Ht').
  destruct (reconcile_item_by_code db (reconcile_item db it) it Hc) as (Hg & Hd).
  apply item_eq; congruence.
Qed.

(** X18.  The GL code and the GL description of a reconciled item always
    come together from one entry of the database, whose code equals the item
    code after zero-stripping, or are the two sentinels together; the
    sentinels are given only when no entry of the database has the
    zero-stripped item code. *)
Theorem X18_gl_fields_come_from_one_entry (db : database) (it : item) :
  (exists e, In e db /\
     Py.lstrip0 (db_Item_Code e) = Py.lstrip0 (Item_Code it) /\
     GL_Code (reconcile_item db it) = Some (db_GL_Code e) /\
     GL_Description (reconcile_item db it) = Some (db_GL_Description e))
  \/
  ((forall e, In e db ->
      Py.lstrip0 (db_Item_Code e) <> Py.lstrip0 (Item_Code it)) /\
   GL_Code (reconcile_item db it) = Some "ASK BOSS"%string /\
   GL_Description (reconcile_item db it) = Some "ASK BOSS FOR PROPER GL"%string).
Proof.
  unfold reconcile_item.
  destruct (exact_match db (Item_Code it)) as [e|] eqn:He.
  - left. apply find_some in He as (Hin & Heq). apply String.eqb_eq in Heq.
    exists e. rewrite Heq. auto.
  - destruct (stripped_match db (Item_Code it)) as [e|] eqn:Hs.
    + left. apply find_some in Hs as (Hin & Heq). apply String.eqb_eq in Heq.
      exists e. auto.
    + right. split; [|split; reflexivity].
      intros e Hin. apply String.eqb_neq.
      apply (find_none _ _ Hs e Hin).
Qed.

End Matching.

(** ** More on the summary and on [main] *)

Section Summary.

Context {PF : PyFloat}.

Lemma keys_add_amount (k : string) (a : float) (s : summary) :
  map fst (add_amount k a s) = add_key (map fst s) k.
Proof.
  unfold add_key. induction s as [|[k' v] s IH]; simpl; [reflexivity|].
  rewrite (String.eqb_sym k k').
  destruct (String.eqb k' k); simpl; [reflexivity|].
  rewrite IH. now destruct (existsb (String.eqb k) (map fst s)).
Qed.

Lemma keys_fold (l : list item) (s : summary) :
  map fst (fold_left summary_step l s) = fold_left add_key (summarised l) (map fst s).
Proof.
  revert s. unfold summarised. induction l as [|it l IH]; simpl; intros s; [reflexivity|].
  rewrite IH. unfold summary_step.
  destruct (String.eqb (Item_Code it) shipping_code); simpl; [reflexivity|].
  now rewrite keys_add_amount.
Qed.

Lemma add_key_spec (acc : list string) (k : string) :
  (NoDup acc -> NoDup (add_key acc k)) /\
  (forall d, In d (add_key acc k) <-> In d acc \/ d = k).
Proof.
  unfold add_key. destruct (existsb (String.eqb k) acc) eqn:He.
  - apply existsb_exists in He as (x & Hx & Heq). apply String.eqb_eq in Heq. subst x.
    split; [auto|]. intros d. split; [auto|]. intros [H | ->]; assumption.
  - split.
    + intros Hnd. apply NoDup_app; [exact Hnd | repeat constructor; intros [] |].
      intros x Hx [Hk | []]. subst x.
      assert (existsb (String.eqb k) acc = true).
      { apply existsb_exists. exists k. split; [exact Hx | apply String.eqb_refl]. }
      congruence.
    + intros d. rewrite in_app_iff. simpl. intuition.
Qed.

Lemma fold_add_key_spec (ks acc : list string) :
  (NoDup acc -> NoDup (fold_left add_key ks acc)) /\
  (forall d, In d (fold_left add_key ks acc) <-> In d acc \/ In d ks).
Proof.
  revert acc. induction ks as [|k ks IH]; simpl; intros acc.
  - split; [auto|]. intros d. intuition.
  - destruct (IH (add_key acc k)) as (Hnd & Hin).
    destruct (add_key_spec acc k) as (Hnd' & Hin'). split; [auto|].
    intros d. rewrite Hin, Hin'. intuition.
Qed.

(** X19.  The summary has one bucket per description, in the order in which
    the descriptions first occur among the items that are not the shipping
    item: no description occurs twice, and a description has a bucket
    exactly when some item other than the shipping item carries it (the
    sentinel description standing for a missing one). *)
Theorem X19_one_bucket_per_description (l : list item) :
  map fst (generate_summary l) = first_seen (summarised l) /\
  NoDup (map fst (generate_summary l)) /\
  (forall d, In d (map fst (generate_summary l)) <->
             exists it, In it l /\ Item_Code it <> shipping_code /\
                        description_of it = d).
Proof.
  rewrite generate_summary_fold, keys_fold. cbn [map]. fold (first_seen (summarised l)).
  destruct (fold_add_key_spec (summarised l) []) as (Hnd & Hin).
  split; [reflexivity|]. split; [apply Hnd; constructor|].
  intros d. unfold first_seen. rewrite Hin. unfold summarised. split.
  - intros [[] | H]. apply in_map_iff in H as (it & Hd & Hit).
    apply filter_In in Hit as (Hit & Hs). exists it. repeat split; auto.
    apply negb_true_iff in Hs. now apply String.eqb_neq.
  - intros (it & Hit & Hs & Hd). right. apply in_map_iff. exists it.
    split; [exact Hd|]. apply filter_In. split; [exact Hit|].
    apply negb_true_iff. now apply String.eqb_neq.
Qed.

(** X20.  The amount of a bucket is the sum, taken from left to right, of
    the line totals of the items other than the shipping item that carry the
    description, an item without a GL description counting under
    "ASK BOSS FOR PROPER GL"; a description that no such item carries has no
    bucket. *)
Theorem X20_a_bucket_sums_its_line_totals (l : list item) (desc : string) :
  lookup desc (generate_summary l) = running_sum None (bucket desc l) /\
  (lookup desc (generate_summary l) = None <-> bucket desc l = []).
Proof.
  assert (H : lookup desc (generate_summary l) = running_sum None (bucket desc l)).
  { rewrite generate_summary_fold. apply (lookup_fold desc l []). }
  split; [exact H|]. rewrite H. destruct (bucket desc l) as [|a b]; simpl.
  - split; reflexivity.
  - split; [|discriminate]. intros Hn. exfalso. now apply (running_sum_some a b).
Qed.

Lemma fold_left_agree {A B : Type} (f g : A -> B -> A) (l : list B) (x : A) :
  (forall a b, In b l -> f a b = g a b) ->
  fold_left f l x = fold_left g l x.
Proof.
  revert x. induction l as [|b l IH]; simpl; intros x H; [reflexivity|].
  rewrite (H x b) by now left. apply IH. intros a b' Hb'. apply H. now right.
Qed.

(** Summing the values of a dictionary is summing its buckets key by key. *)
Lemma subtotal_by_keys (s : summary) (x : float) :
  NoDup (map fst s) ->
  fold_left (fun acc e => fadd acc (snd e)) s x =
  fold_left (fun acc d => add_bucket acc (lookup d s)) (map fst s) x.
Proof.
  revert x. induction s as [|[k v] s IH]; simpl; intros x Hnd; [reflexivity|].
  apply NoDup_cons_iff in Hnd as [Hk Hnd].
  rewrite String.eqb_refl. cbn [add_bucket]. rewrite (IH _ Hnd).
  apply fold_left_agree. intros a d Hd.
  destruct (String.eqb k d) eqn:Hkd; [|reflexivity].
  apply String.eqb_eq in Hkd. subst d. contradiction.
Qed.

(** X21.  The "Sub total" that [main] prints is 0.0 to which the buckets of
    the summary are added one by one, in the order in which their
    descriptions first occur among the items other than the shipping item,
    each bucket being the left-to-right sum of its line totals.  This fixes
    the order of the float additions, for any float arithmetic. *)
Theorem X21_the_subtotal_adds_the_buckets_in_order (st : scan) :
  calculated_subtotal (generate_summary (items st)) =
    fold_left (fun acc d => add_bucket acc (running_sum None (bucket d (items st))))
              (first_seen (summarised (items st))) zero /\
  In (Amount "Sub total" (calculated_subtotal (generate_summary (items st))))
     (report st).
Proof.
  split.
  - unfold calculated_subtotal. rewrite subtotal_by_keys.
    + rewrite generate_summary_fold, keys_fold. cbn [map].
      fold (first_seen (summarised (items st))).
      apply fold_left_agree. intros a d _. now rewrite lookup_fold.
    + rewrite generate_summary_fold, keys_fold.
      apply (fold_add_key_spec (summarised (items st)) []). constructor.
  - unfold report, calculated_subtotal.
    do 4 (apply in_or_app; right). right. left. reflexivity.
Qed.

Lemma report_messages (st : scan) (s : string) :
  In (Message s) (report st) ->
  In s ["=== Extracted Items ===";
        "Item Code       QTY shipped     Line Total    GL Code    GL Description";
        "--------------------------------------------------------------------------------";
        "=== Summary by GL Description ==="; "=== DONE ==="]%string.
Proof.
  unfold report. intros H.
  apply in_app_or in H as [H | H].
  { destruct H as [H | [H | [H | []]]]; injection H as <-; simpl; auto. }
  apply in_app_or in H as [H | H].
  { apply in_map_iff in H as (it & Hit & _). discriminate. }
  apply in_app_or in H as [H | H].
  { destruct H as [H | []]. injection H as <-. simpl. auto. }
  apply in_app_or in H as [H | H].
  { apply in_map_iff in H as (e & He & _). discriminate. }
  destruct H as [H | [H | [H | [H | [H | []]]]]]; try discriminate.
  injection H as <-. simpl. auto 6.
Qed.

(** X22.  When the table pass or the text extraction yields an item,
    [main] prints the report and never the error message: the messages of
    [process_starbucks_invoice], then one line per extracted item, in order,
    between the header and the summary. *)
Theorem X22_items_give_a_report
        (db : database) (text : string) (tables : list table) :
  items (table_pass tables) <> [] \/ extract_items_from_starbucks_invoice text <> [] ->
  let st := process_starbucks_invoice text tables db in
  main db text tables = map Message (process_prints text tables) ++ report st /\
  ~ In (Message "Error: No items were extracted from the invoice") (main db text tables) /\
  (exists head tail,
     report st = head ++ map Item_line (reconcile db (items (extraction text tables))) ++ tail /\
     (forall o, In o head \/ In o tail -> forall it, o <> Item_line it)).
Proof.
  intros Hitems st.
  assert (Hne : items (extraction text tables) <> []).
  { rewrite extraction_items.
    destruct (items (table_pass tables)) as [|it l]; [|discriminate].
    destruct Hitems as [H | H]; [congruence | exact H]. }
  assert (Hst : items st = reconcile db (items (extraction text tables))) by reflexivity.
  assert (Hmain : main db text tables =
                  map Message (process_prints text tables) ++ report st).
  { unfold main. fold st. rewrite Hst.
    destruct (items (extraction text tables)) as [|it l]; [congruence | reflexivity]. }
  split; [exact Hmain|]. split.
  - rewrite Hmain. intros H. apply in_app_or in H as [H | H].
    + apply in_map_iff in H as (s & Hs & Hin). injection Hs as ->.
      apply process_prints_cases in Hin as [H | [H | H]]; discriminate.
    + apply report_messages in H. simpl in H.
      destruct H as [H | [H | [H | [H | [H | []]]]]]; discriminate.
  - unfold report. rewrite Hst. eexists. eexists. split; [reflexivity|].
    intros o [H | H] it Ho; subst o.
    + destruct H as [H | [H | [H | []]]]; discriminate.
    + apply in_app_or in H as [H | H].
      { destruct H as [H | []]. discriminate. }
      apply in_app_or in H as [H | H].
      { apply in_map_iff in H as (e & He & _). discriminate. }
      destruct H as [H | [H | [H | [H | [H | []]]]]]; discriminate.
Qed.

End Summary.

(** * The further properties on concrete inputs *)

Lemma X1_witness :
  load_database raw_sheet = Some (map load_row (sheet_rows raw_sheet)) /\
  In coffee_sheet_row (sheet_rows raw_sheet) /\
  Py.isdigit (coffee_sheet_row "Item Code"%string) = true /\
  String.length (coffee_sheet_row "Item Code"%string) <= 9 /\
  String.length "011120225" = 9 /\
  Py.lstrip0 (coffee_sheet_row "Item Code"%string) = Py.lstrip0 "011120225" /\
  canon_code "11120225" = "011120225"%string /\
  exact_match (map load_row (sheet_rows raw_sheet)) "011120225" <> None.
Proof.
  assert (H1 : load_database raw_sheet = Some (map load_row (sheet_rows raw_sheet)))
    by (vm_compute; reflexivity).
  assert (H2 : In coffee_sheet_row (sheet_rows raw_sheet)) by (left; reflexivity).
  assert (H3 : Py.isdigit (coffee_sheet_row "Item Code"%string) = true)
    by (vm_compute; reflexivity).
  assert (H4 : String.length (coffee_sheet_row "Item Code"%string) <= 9)
    by (vm_compute; lia).
  assert (H5 : String.length "011120225" = 9) by (vm_compute; reflexivity).
  assert (H6 : Py.lstrip0 (coffee_sheet_row "Item Code"%string) = Py.lstrip0 "011120225")
    by (vm_compute; reflexivity).
  destruct (X1_loading_restores_the_exact_match raw_sheet _ coffee_sheet_row
              "011120225" H1 H2 H3 H4 H5 H6) as (Hcanon & e & _ & _ & Hfind & _).
  repeat (split; [assumption|]).
  rewrite Hfind. discriminate.
Defined.

Lemma X3_witness :
  (exists col, In col required_columns /\ ~ In col (sheet_columns sheet_without_gl)) /\
  load_database sheet_without_gl = None /\
  load_database raw_sheet <> None.
Proof.
  assert (H : exists col, In col required_columns /\
                          ~ In col (sheet_columns sheet_without_gl)).
  { exists "GL Code"%string. split; [right; left; reflexivity|].
    intros [H | [H | []]]; discriminate. }
  split; [exact H|]. split.
  - apply (proj1 (X3_loading_needs_the_three_columns sheet_without_gl)). exact H.
  - vm_compute. discriminate.
Defined.


Lemma X5_witness :
  no_newline "123456789" /\ "123456789"%string <> EmptyString /\
  exists text tables,
    extract_text_from_pdf [first_page; second_page] = Some (text, tables) /\
    Py.contains "123456789" text = true.
Proof.
  assert (Hn : no_newline "123456789") by (vm_compute; reflexivity).
  assert (Hne : "123456789"%string <> EmptyString) by discriminate.
  split; [exact Hn|]. split; [exact Hne|].
  destruct (extract_text_from_pdf [first_page; second_page]) as [[text tables]|] eqn:He.
  - exists text, tables. split; [reflexivity|].
    apply (X5_a_code_is_found_on_a_page _ text tables "123456789" He Hn Hne).
    exists first_page_text, [[header_row; other_item_row]].
    split; [left; reflexivity | vm_compute; reflexivity].
  - vm_compute in He. discriminate.
Defined.

Lemma X6_witness :
  In syrup_item (extract_items_from_starbucks_invoice syrup_line) /\
  Py.contains (Item_Code syrup_item) syrup_line = true /\
  (forall k, In k sample_items -> Item_Code k <> Item_Code syrup_item).
Proof.
  assert (H : In syrup_item (extract_items_from_starbucks_invoice syrup_line))
    by (vm_compute; left; reflexivity).
  split; [exact H|].
  destruct (X6_extracted_codes_appear_in_the_text syrup_line syrup_item H)
    as (Hc & [(_ & Hs) | (_ & _ & _ & _ & Hk & _)]).
  - exfalso. revert Hs. vm_compute. intuition discriminate.
  - split; [exact Hc | exact Hk].
Defined.

Lemma X7_witness :
  In syrup_line (Py.split_lines (lines ["PAGE 1"; syrup_line]%string)) /\
  syrup_line = ("123456789" ++ " SYRUP " ++ "2" ++ " " ++ "10.00")%string /\
  String.length "123456789" = 9 /\ digits "123456789" /\
  separator " SYRUP " /\ number_text "2" /\ separator " " /\ number_text "10.00" /\
  py_float "2" = Some (float_of_Q 2) /\ py_float "10.00" = Some (float_of_Q 10) /\
  In syrup_item (extract_items_from_starbucks_invoice (lines ["PAGE 1"; syrup_line]%string)).
Proof.
  assert (H1 : In syrup_line (Py.split_lines (lines ["PAGE 1"; syrup_line]%string)))
    by (vm_compute; right; left; reflexivity).
  assert (H2 : syrup_line = ("123456789" ++ " SYRUP " ++ "2" ++ " " ++ "10.00")%string)
    by reflexivity.
  assert (H3 : String.length "123456789" = 9) by reflexivity.
  assert (H4 : digits "123456789") by (vm_compute; reflexivity).
  assert (H5 : separator " SYRUP ") by (split; [discriminate | vm_compute; reflexivity]).
  assert (H6 : number_text "2").
  { split; [exists "2"%char, EmptyString; split; reflexivity | vm_compute; reflexivity]. }
  assert (H7 : separator " ") by (split; [discriminate | vm_compute; reflexivity]).
  assert (H8 : number_text "10.00").
  { split; [exists "1"%char, "0.00"%string; split; reflexivity | vm_compute; reflexivity]. }
  assert (H9 : py_float "2" = Some (float_of_Q 2)) by (vm_compute; reflexivity).
  assert (H10 : py_float "10.00" = Some (float_of_Q 10)) by (vm_compute; reflexivity).
  destruct (X7_a_well_formed_line_gives_its_item
              (lines ["PAGE 1"; syrup_line]%string) syrup_line
              "123456789" " SYRUP " "2" " " "10.00" (float_of_Q 2) (float_of_Q 10)
              H1 H2 H3 H4 H5 H6 H7 H8 H9 H10) as (_ & Hex).
  repeat (split; [assumption|]).
  apply Hex. vm_compute. reflexivity.
Defined.

Lemma X8_witness :
  In coffee_row_item (items (table_pass [full_table])) /\
  exists t r q,
    In t [full_table] /\ In r t /\ 10 <= List.length r /\
    cell_at r 1 = CStr (Item_Code coffee_row_item) /\
    to_float (cell_at r 7) = Some q.
Proof.
  assert (H : In coffee_row_item (items (table_pass [full_table])))
    by (vm_compute; left; reflexivity).
  split; [exact H|].
  destruct (proj1 (X8_table_items_come_from_rows [full_table]) coffee_row_item H)
    as (t & r & q & Ht & Hr & Hlen & Hc & Hq & _).
  exists t, r, q. auto.
Defined.

Lemma X9_witness :
  10 <= List.length item_row /\
  is_header item_row = false /\
  cell_at item_row 1 = CStr "011120225" /\
  Py.contains "SHIPPING" (row_str item_row) || Py.contains "HDLG" (row_str item_row) = false /\
  accepted "011120225" item_row (float_of_Q 16) (float_of_Q (6256 # 100)) /\
  In coffee_row_item (items (table_pass [full_table])).
Proof.
  assert (H1 : 10 <= List.length item_row) by (simpl; lia).
  assert (H2 : is_header item_row = false) by (vm_compute; reflexivity).
  assert (H3 : cell_at item_row 1 = CStr "011120225") by reflexivity.
  assert (H4 : Py.contains "SHIPPING" (row_str item_row)
               || Py.contains "HDLG" (row_str item_row) = false)
    by (vm_compute; reflexivity).
  assert (H5 : accepted "011120225" item_row (float_of_Q 16) (float_of_Q (6256 # 100))).
  { unfold accepted. repeat (split; [vm_compute; reflexivity|]). vm_compute. reflexivity. }
  destruct (X9_a_well_formed_row_is_accepted [full_table] full_table scan0 item_row
              "011120225" (float_of_Q 16) (float_of_Q (6256 # 100)) H1 H2 H3 H4 H5)
    as (_ & Hin).
  repeat (split; [assumption|]).
  apply Hin; [left; reflexivity | right; left; reflexivity].
Defined.

Lemma X10_witness :
  (forall t r, In t [[narrow_row]] -> In r t -> List.length r < 10) /\
  main reference "INVOICE 011120225" [[narrow_row]] =
  main reference "INVOICE 011120225" [].
Proof.
  assert (H : forall t r, In t [[narrow_row]] -> In r t -> List.length r < 10).
  { intros t r Ht Hr. destruct Ht as [Ht | Ht]; [subst t | destruct Ht].
    destruct Hr as [Hr | Hr]; [subst r | destruct Hr]. simpl. lia. }
  split; [exact H|].
  apply (X10_narrow_tables_are_ignored "INVOICE 011120225" [[narrow_row]] reference H).
Defined.

Lemma X13_witness :
  ends_apart "SUB TOTAL 1," /\
  "062"%string <> EmptyString /\ digits "062" /\
  Py.is_digit "5" = true /\ Py.is_digit "6" = true /\
  last_amount "SUB TOTAL 1,062.56" = Some (float_of_Q (6256 # 100)) /\
  subtotal (text_totals_line scan0 "SUB TOTAL 1,062.56") = float_of_Q (6256 # 100).
Proof.
  assert (H1 : ends_apart "SUB TOTAL 1,").
  { right. exists "SUB TOTAL 1"%string, ","%char. split; reflexivity. }
  assert (H2 : "062"%string <> EmptyString) by discriminate.
  assert (H3 : digits "062") by (vm_compute; reflexivity).
  assert (H4 : Py.is_digit "5" = true) by (vm_compute; reflexivity).
  assert (H5 : Py.is_digit "6" = true) by (vm_compute; reflexivity).
  destruct (X13_the_amount_at_the_end_is_read scan0 "SUB TOTAL 1," "062" "5" "6"
              H1 H2 H3 H4 H5) as (cents & _ & Hparse & _ & Hlast & Hsub).
  vm_compute in Hparse. injection Hparse as <-.
  repeat (split; [assumption|]).
  apply Hsub. vm_compute. reflexivity.
Defined.

Lemma X14_witness :
  Py.contains "SUB TOTAL" "TAX 2.00" = false /\
  subtotal (extraction "TAX 2.00" [[subtotal_row]]) = float_of_Q (6256 # 100) /\
  tax (extraction "TAX 2.00" [[subtotal_row]]) = float_of_Q 2.
Proof.
  assert (H : Py.contains "SUB TOTAL" "TAX 2.00" = false) by (vm_compute; reflexivity).
  split; [exact H|].
  destruct (X14_a_missing_label_changes_nothing "TAX 2.00" [[subtotal_row]]) as (Hs & _).
  rewrite (Hs H). split; vm_compute; reflexivity.
Defined.

Lemma X15_witness :
  feq0 (shipping_amount (table_pass [])) = true /\
  Py.split_lines shipping_lines = ["SHIPPING 1.00"%string] ++ "HDLG 2.00"%string :: ["THANK YOU"%string] /\
  Py.contains "SHIPPING" "HDLG 2.00" || Py.contains "HDLG" "HDLG 2.00" = true /\
  last_amount "HDLG 2.00" = Some (float_of_Q 2) /\
  shipping_amount (extraction shipping_lines []) = float_of_Q 2.
Proof.
  assert (H1 : feq0 (shipping_amount (table_pass [])) = true) by (vm_compute; reflexivity).
  assert (H2 : Py.split_lines shipping_lines =
               ["SHIPPING 1.00"%string] ++ "HDLG 2.00"%string :: ["THANK YOU"%string])
    by (vm_compute; reflexivity).
  assert (H3 : Py.contains "SHIPPING" "HDLG 2.00" || Py.contains "HDLG" "HDLG 2.00" = true)
    by (vm_compute; reflexivity).
  assert (H4 : last_amount "HDLG 2.00" = Some (float_of_Q 2)) by (vm_compute; reflexivity).
  repeat (split; [assumption|]).
  apply (X15_the_last_shipping_line_wins shipping_lines [] _ _ _ _ H1 H2 H3 H4).
  intros l [<- | []]. left. vm_compute. reflexivity.
Defined.

Lemma X16_witness :
  In {| db_Item_Code := "011120225"; db_GL_Code := "5010";
        db_GL_Description := "COFFEE AND TEA" |} padded_first /\
  Py.lstrip0 "0011120225" = Py.lstrip0 (Item_Code coffee_item) /\
  GL_Code (reconcile_item padded_first coffee_item) = Some "5010"%string /\
  GL_Description (reconcile_item padded_first coffee_item) = Some "COFFEE AND TEA"%string.
Proof.
  assert (Hin : In {| db_Item_Code := "011120225"; db_GL_Code := "5010";
                      db_GL_Description := "COFFEE AND TEA" |} padded_first)
    by (right; left; reflexivity).
  split; [exact Hin|]. split; [vm_compute; reflexivity|].
  destruct (X16_the_exact_match_comes_first padded_first coffee_item _ Hin eq_refl)
    as (before & first & after & Hdb & Hfirst & Hbefore & Hcode & Hdesc).
  destruct before as [|b before].
  - injection Hdb as <- _. exfalso. revert Hfirst. vm_compute. discriminate.
  - injection Hdb as <- Hdb. destruct before as [|b' before].
    + injection Hdb as <- _. split; assumption.
    + injection Hdb as _ Hdb. destruct before; discriminate.
Defined.

Lemma X17_witness :
  Item_Code (set_gl "0000" "OLD" coffee_item) = Item_Code coffee_item /\
  GL_Code (reconcile_item reference (set_gl "0000" "OLD" coffee_item)) = Some "5010"%string /\
  reconcile reference (reconcile reference [coffee_item; unknown_item]) =
    reconcile reference [coffee_item; unknown_item].
Proof.
  assert (H : Item_Code (set_gl "0000" "OLD" coffee_item) = Item_Code coffee_item)
    by reflexivity.
  destruct (X17_reconciliation_is_idempotent reference [coffee_item; unknown_item])
    as (Hidem & Hcode).
  split; [exact H|]. split; [|exact Hidem].
  rewrite (proj1 (Hcode _ _ H)). vm_compute. reflexivity.
Defined.

Lemma X22_witness :
  (items (table_pass [[header_row; item_row]]) <> [] \/
   extract_items_from_starbucks_invoice "INVOICE" <> []) /\
  ~ In (Message "Error: No items were extracted from the invoice")
       (main reference "INVOICE" [[header_row; item_row]]).
Proof.
  assert (H : items (table_pass [[header_row; item_row]]) <> [] \/
              extract_items_from_starbucks_invoice "INVOICE" <> []).
  { left. vm_compute. discriminate. }
  split; [exact H|].
  apply (X22_items_give_a_report reference "INVOICE" [[header_row; item_row]] H).
Defined.

Lemma X23_witness :
  In dotted_line (Py.split_lines dotted_line) /\
  dotted_line = ("123456789" ++ " SYRUP " ++ "." ++ "5" ++ " " ++ "10.00")%string /\
  String.length "123456789" = 9 /\ digits "123456789" /\
  separator " SYRUP " /\ number_text "5" /\ separator " " /\ number_text "10.00" /\
  py_float "5" = Some (float_of_Q 5) /\ py_float "10.00" = Some (float_of_Q 10) /\
  pattern_items_in dotted_line =
    [new_item "123456789" (Flt (float_of_Q 5)) (float_of_Q 10)].
Proof.
  assert (H1 : In dotted_line (Py.split_lines dotted_line))
    by (vm_compute; left; reflexivity).
  assert (H2 : dotted_line = ("123456789" ++ " SYRUP " ++ "." ++ "5" ++ " " ++ "10.00")%string)
    by reflexivity.
  assert (H3 : String.length "123456789" = 9) by reflexivity.
  assert (H4 : digits "123456789") by (vm_compute; reflexivity).
  assert (H5 : separator " SYRUP ") by (split; [discriminate | vm_compute; reflexivity]).
  assert (H6 : number_text "5").
  { split; [exists "5"%char, EmptyString; split; reflexivity | vm_compute; reflexivity]. }
  assert (H7 : separator " ") by (split; [discriminate | vm_compute; reflexivity]).
  assert (H8 : number_text "10.00").
  { split; [exists "1"%char, "0.00"%string; split; reflexivity | vm_compute; reflexivity]. }
  assert (H9 : py_float "5" = Some (float_of_Q 5)) by (vm_compute; reflexivity).
  assert (H10 : py_float "10.00" = Some (float_of_Q 10)) by (vm_compute; reflexivity).
  destruct (X23_a_leading_dot_is_not_read dotted_line dotted_line
              "123456789" " SYRUP " "5" " " "10.00" (float_of_Q 5) (float_of_Q 10)
              H1 H2 H3 H4 H5 H6 H7 H8 H9 H10) as (Hitems & _).
  repeat (split; [assumption|]).
  unfold pattern_items_in.
  replace (Py.split_lines dotted_line) with [dotted_line] by (vm_compute; reflexivity).
  cbn [flat_map]. rewrite app_nil_r. exact Hitems.
Defined.
